(** * build.py: the static documentation site generator

    A shallow embedding of [src/build.py] and the properties of its
    navigation-tree-to-site pipeline.

    - Python [str] values are [string]s: the UTF-8 bytes of the text.
      Every pattern the script searches for is ASCII, and UTF-8 is
      self-synchronising, so searching bytes and searching code points
      find the same occurrences.
    - The navigation tree is an inductive type with the three keys of an
      entry; the dictionary tests of the script are matches on options.
    - The file system is a pair of finite maps, and the builder threads a
      state through its loop; [None] is an uncaught exception.  Reading
      can fail; writing cannot, so what is proved of a build is proved of
      a build that completes.
    - Paths are strings; what is printed of a path is what pathlib prints
      on POSIX.
    - The Python-Markdown package is a parameter.

    The first part translates the script, the second names what the
    properties speak about, the third proves them. *)

From Stdlib Require Import Ascii String DecimalString.
From stdpp Require Import gmap strings list fin_maps.

(** * The script *)

(** ** Python string primitives *)

(** The double quote character, and the literals of the script that
    contain it: in the literals below a tilde stands for a double quote
    (the script's own text has no tilde). *)
Definition dquote : ascii := "034"%char.

Fixpoint tilde_quotes (s : string) : string :=
  match s with
  | EmptyString => EmptyString
  | String c s' =>
      String (if Ascii.eqb c "~"%char then dquote else c) (tilde_quotes s')
  end.

(** [s.startswith(p)] *)
Fixpoint startswith (s p : string) {struct p} : bool :=
  match p with
  | EmptyString => true
  | String a p' =>
      match s with
      | EmptyString => false
      | String b s' => Ascii.eqb a b && startswith s' p'
      end
  end.

(** [s[n:]] *)
Fixpoint str_drop (n : nat) (s : string) : string :=
  match n, s with
  | S k, String _ s' => str_drop k s'
  | _, _ => s
  end.

(** [s.replace(old, new)] for a non-empty [old]: scan from the left; at an
    occurrence of [old] emit [new] and resume after the occurrence, which
    [skip] counts down.  Inserted text is never scanned again. *)
Fixpoint replace_scan (old new : string) (skip : nat) (s : string) : string :=
  match s with
  | EmptyString => EmptyString
  | String c s' =>
      match skip with
      | S k => replace_scan old new k s'
      | O =>
          if startswith s old
          then new +:+ replace_scan old new (String.length old - 1) s'
          else String c (replace_scan old new 0 s')
      end
  end.

(** [s.replace("", new)]: [new] before every character and at the end. *)
Fixpoint replace_empty (new s : string) : string :=
  match s with
  | EmptyString => new
  | String c s' => new +:+ String c (replace_empty new s')
  end.

Definition replace (s old new : string) : string :=
  match old with
  | EmptyString => replace_empty new s
  | String _ _ => replace_scan old new 0 s
  end.

(** [s.count(sub)]: the number of non-overlapping occurrences, found from
    the left. *)
Fixpoint count_scan (sub : string) (skip : nat) (s : string) : nat :=
  match s with
  | EmptyString => 0
  | String c s' =>
      match skip with
      | S k => count_scan sub k s'
      | O =>
          if startswith s sub
          then S (count_scan sub (String.length sub - 1) s')
          else count_scan sub 0 s'
      end
  end.

Definition count (s sub : string) : nat :=
  match sub with
  | EmptyString => S (String.length s)
  | String _ _ => count_scan sub 0 s
  end.

(** [s * n] *)
Fixpoint str_mul (s : string) (n : nat) : string :=
  match n with
  | O => EmptyString
  | S k => s +:+ str_mul s k
  end.

(** [sep.join(l)] *)
Fixpoint join (sep : string) (l : list string) : string :=
  match l with
  | [] => EmptyString
  | [x] => x
  | x :: rest => x +:+ sep +:+ join sep rest
  end.

(** [str(n)] for a non-negative integer, as an f-string field prints it. *)
Definition str_of_nat (n : nat) : string :=
  NilZero.string_of_uint (Nat.to_uint n).

(** [c.isspace()], which is also the class [\s] of [re] on [str]: the
    characters 9 to 13, 28 to 32, U+0085, U+00A0, U+1680, U+2000 to
    U+200A, U+2028, U+2029, U+202F, U+205F and U+3000, recognised here by
    their one, two or three bytes in UTF-8. *)
Definition is_space (c : ascii) : bool :=
  let n := nat_of_ascii c in
  (9 <=? n) && (n <=? 13) || (28 <=? n) && (n <=? 32).

Definition is_space2 (c1 c2 : ascii) : bool :=
  Ascii.eqb c1 "194" && (Ascii.eqb c2 "133" || Ascii.eqb c2 "160").

Definition is_space3 (c1 c2 c3 : ascii) : bool :=
  let n3 := nat_of_ascii c3 in
  Ascii.eqb c1 "225" && Ascii.eqb c2 "154" && Ascii.eqb c3 "128"
  || Ascii.eqb c1 "226" && Ascii.eqb c2 "128"
     && ((128 <=? n3) && (n3 <=? 138)
         || Ascii.eqb c3 "168" || Ascii.eqb c3 "169" || Ascii.eqb c3 "175")
  || Ascii.eqb c1 "226" && Ascii.eqb c2 "129" && Ascii.eqb c3 "159"
  || Ascii.eqb c1 "227" && Ascii.eqb c2 "128" && Ascii.eqb c3 "128".

Fixpoint lstrip (s : string) : string :=
  match s with
  | EmptyString => EmptyString
  | String c1 s1 =>
      if is_space c1 then lstrip s1
      else match s1 with
           | EmptyString => s
           | String c2 s2 =>
               if is_space2 c1 c2 then lstrip s2
               else match s2 with
                    | EmptyString => s
                    | String c3 s3 =>
                        if is_space3 c1 c2 c3 then lstrip s3 else s
                    end
           end
  end.

(** [s] is white space from its first byte to its end. *)
Fixpoint all_space (s : string) : bool :=
  match s with
  | EmptyString => true
  | String c1 s1 =>
      if is_space c1 then all_space s1
      else match s1 with
           | EmptyString => false
           | String c2 s2 =>
               if is_space2 c1 c2 then all_space s2
               else match s2 with
                    | EmptyString => false
                    | String c3 s3 =>
                        is_space3 c1 c2 c3 && all_space s3
                    end
           end
  end.

Fixpoint rstrip (s : string) : string :=
  match s with
  | EmptyString => EmptyString
  | String c s' => if all_space s then EmptyString else String c (rstrip s')
  end.

(** [s.strip()] *)
Definition strip (s : string) : string := rstrip (lstrip s).

Definition newline : string := String "010"%char EmptyString.

(** ** The navigation tree

    An entry of [NAV_STRUCTURE] is a dict with the keys ["title"], ["path"]
    and ["children"].  The title is read without a default wherever an
    entry is used, so it is a field of every entry; the other two keys may
    be absent, and the script tests for them with [in] and [get]. *)
#[warnings="-register-all"] Inductive NavItem : Type :=
  Item (title : string) (path : option string)
       (children : option (list NavItem)).

Definition Page (title path : string) : NavItem :=
  Item title (Some path) None.

Definition Folder (title : string) (children : list NavItem) : NavItem :=
  Item title None (Some children).

Definition NAV_STRUCTURE : list NavItem :=
  [
    Page "Home" "index.md";
    Page "Getting Started" "getting-started.md";
    Folder "Architecture"
      [
        Page "Overview" "architecture/overview.md";
        Page "State Management" "architecture/state-management.md";
        Page "Camera Pipeline" "architecture/camera-pipeline.md";
        Page "Metadata & SQLite" "architecture/metadata-sqlite.md";
        Folder "Decisions"
          [
            Page "ADR-0001 Nim Language" "architecture/decisions/ADR-0001-nim-language.md";
            Page "ADR-0002 Corun Framework" "architecture/decisions/ADR-0002-corun-framework.md";
            Page "ADR-0003 Observable State" "architecture/decisions/ADR-0003-observable-state.md"
          ]
      ];
    Folder "API Reference"
      [
        Page "Overview" "api/README.md";
        Page "WebSocket API" "api/websocket-api.md";
        Page "HTTP API" "api/http-api.md";
        Page "RTSP Streaming" "api/rtsp-streaming.md";
        Folder "Examples"
          [
            Page "Python Client" "api/examples/python-client.md";
            Page "JavaScript Client" "api/examples/javascript-client.md";
            Page "C# Client" "api/examples/csharp-client.md"
          ]
      ];
    Folder "Configuration"
      [
        Page "Environments" "configuration/environments.md";
        Page "Factory Config" "configuration/factory-config.md";
        Page "License Config" "configuration/license-config.md";
        Page "Deployment Variants" "configuration/deployment-variants.md";
        Page "Camera System" "configuration/camera-system.md";
        Page "Network" "configuration/network.md";
        Page "Storage & Backup" "configuration/storage-backup.md";
        Page "Authentication" "configuration/authentication.md"
      ];
    Folder "Camera System"
      [
        Page "Hardware Interface" "camera/hardware-interface.md";
        Page "Streaming" "camera/streaming.md";
        Page "Recording" "camera/recording.md";
        Page "Image Processing" "camera/image-processing.md"
      ];
    Folder "Operations"
      [
        Page "Build and Deploy" "operations/build-and-deploy.md";
        Page "Build & Deploy (Alt)" "operations/build-deploy.md";
        Page "Monitoring" "operations/monitoring.md";
        Page "Performance" "operations/performance.md";
        Page "Troubleshooting" "operations/troubleshooting.md"
      ];
    Folder "Security"
      [
        Page "Authentication" "security/authentication.md";
        Page "Permissions" "security/permissions.md";
        Page "SSL Certificates" "security/ssl-certificates.md"
      ];
    Folder "Testing"
      [
        Page "Strategy" "testing/testing-strategy.md";
        Page "Strategies" "testing/strategies.md";
        Page "Test Cases" "testing/test-cases.md";
        Page "Validation" "testing/validation.md"
      ];
    Folder "Integration"
      [
        Page "ONVIF Protocol" "integration/onvif-protocol.md";
        Page "Third Party" "integration/third-party.md"
      ];
    Folder "Reference"
      [
        Page "Glossary" "reference/glossary.md";
        Page "Requirements" "reference/requirements.md";
        Page "State Observables" "reference/state-observables.md"
      ];
    Folder "Releases"
      [
        Page "Changelog" "releases/CHANGELOG.md"
      ];
    Page "Glossary" "glossary.md"
  ].

(** ** The navigation renderer *)

Definition li_folder_open : string :=
  Eval cbv in tilde_quotes "<li class=~nav-folder depth-".
Definition li_item_open : string :=
  Eval cbv in tilde_quotes "<li class=~nav-item depth-".
Definition attr_close : string := Eval cbv in tilde_quotes "~>".
Definition span_open : string :=
  Eval cbv in tilde_quotes "<span class=~folder-title~>".
Definition ul_open : string :=
  Eval cbv in tilde_quotes "<ul class=~nav-submenu~>".
Definition a_open : string := Eval cbv in tilde_quotes "<a href=~".

(** The strings one entry appends to the list [html] of
    [generate_nav_html]; a folder appends the rendering of its children as
    a single string. *)
Fixpoint nav_item_html (current_path base_path : string) (depth : nat)
    (item : NavItem) {struct item} : list string :=
  match item with
  | Item title _ (Some children) =>
      [ li_folder_open +:+ str_of_nat depth +:+ attr_close;
        span_open +:+ title +:+ "</span>";
        ul_open;
        join newline
          (flat_map (nav_item_html current_path base_path (S depth)) children);
        "</ul>";
        "</li>" ]
  | Item title path None =>
      let path := default EmptyString path in
      let html_path := replace path ".md" ".html" in
      let is_active := String.eqb html_path current_path in
      let active_class := if is_active then " active" else EmptyString in
      [ li_item_open +:+ str_of_nat depth +:+ active_class +:+ attr_close;
        a_open +:+ base_path +:+ html_path +:+ attr_close +:+ title +:+ "</a>";
        "</li>" ]
  end.

Definition generate_nav_html (nav_items : list NavItem)
    (current_path : string) (depth : nat) (base_path : string) : string :=
  join newline (flat_map (nav_item_html current_path base_path depth) nav_items).

(** ** The page shell *)

Definition get_html_template : string := Eval cbv in tilde_quotes
"<!DOCTYPE html>
<html lang=~en~>
<head>
    <meta charset=~UTF-8~>
    <meta name=~viewport~ content=~width=device-width, initial-scale=1.0~>
    <title>{{TITLE}} - C Pro Camera Server Documentation</title>
    <link rel=~stylesheet~ href=~{{BASE_PATH}}assets/style.css~>
    <link rel=~stylesheet~ href=~https://cdnjs.cloudflare.com/ajax/libs/highlight.js/11.9.0/styles/github-dark.min.css~>
    <script src=~https://cdn.jsdelivr.net/npm/mermaid@10/dist/mermaid.min.js~></script>
</head>
<body>
    <div class=~container~>
        <aside class=~sidebar~>
            <div class=~sidebar-header~>
                <h1><a href=~{{BASE_PATH}}index.html~>C Pro Docs</a></h1>
                <p>Camera Server Documentation</p>
            </div>
            <nav class=~sidebar-nav~>
                <ul class=~nav-menu~>
                    {{NAVIGATION}}
                </ul>
            </nav>
        </aside>
        
        <main class=~content~>
            <div class=~content-wrapper~>
                {{CONTENT}}
            </div>
            <footer class=~content-footer~>
                <p>Copyright © 2025 Rotoclear</p>
            </footer>
        </main>
        
        <button class=~mobile-menu-toggle~ id=~menuToggle~ aria-label=~Toggle menu~>☰</button>
    </div>
    
    <script src=~https://cdnjs.cloudflare.com/ajax/libs/highlight.js/11.9.0/highlight.min.js~></script>
    <script>
        // Initialize Mermaid
        mermaid.initialize({ 
            startOnLoad: true,
            theme: 'default',
            securityLevel: 'loose',
            fontFamily: 'Inter, sans-serif'
        });
        
        // Syntax highlighting
        hljs.highlightAll();
        
        // Mobile menu toggle
        const menuToggle = document.getElementById('menuToggle');
        const sidebar = document.querySelector('.sidebar');
        
        menuToggle.addEventListener('click', () => {
            sidebar.classList.toggle('active');
        });
        
        // Close sidebar when clicking outside on mobile
        document.addEventListener('click', (e) => {
            if (window.innerWidth <= 768 && 
                !sidebar.contains(e.target) && 
                !menuToggle.contains(e.target) &&
                sidebar.classList.contains('active')) {
                sidebar.classList.remove('active');
            }
        });
        
        // Smooth scroll for anchor links
        document.querySelectorAll('a[href^=~#~]').forEach(anchor => {
            anchor.addEventListener('click', function (e) {
                e.preventDefault();
                const target = document.querySelector(this.getAttribute('href'));
                if (target) {
                    target.scrollIntoView({ behavior: 'smooth' });
                }
            });
        });
    </script>
</body>
</html>".

Definition TITLE : string := "{{TITLE}}".
Definition BASE_PATH : string := "{{BASE_PATH}}".
Definition NAVIGATION : string := "{{NAVIGATION}}".
Definition CONTENT : string := "{{CONTENT}}".

(** The block [# Fill template] of [process_file]. *)
Definition fill_template (template title base_path nav_html html_content : string)
    : string :=
  let page_html := replace template TITLE title in
  let page_html := replace page_html BASE_PATH base_path in
  let page_html := replace page_html NAVIGATION nav_html in
  let page_html := replace page_html CONTENT html_content in
  page_html.

(** The text of the shell between its placeholders. *)
Definition seg0 : string := Eval cbv in tilde_quotes
"<!DOCTYPE html>
<html lang=~en~>
<head>
    <meta charset=~UTF-8~>
    <meta name=~viewport~ content=~width=device-width, initial-scale=1.0~>
    <title>".

Definition seg1 : string := Eval cbv in tilde_quotes
" - C Pro Camera Server Documentation</title>
    <link rel=~stylesheet~ href=~".

Definition seg2 : string := Eval cbv in tilde_quotes
"assets/style.css~>
    <link rel=~stylesheet~ href=~https://cdnjs.cloudflare.com/ajax/libs/highlight.js/11.9.0/styles/github-dark.min.css~>
    <script src=~https://cdn.jsdelivr.net/npm/mermaid@10/dist/mermaid.min.js~></script>
</head>
<body>
    <div class=~container~>
        <aside class=~sidebar~>
            <div class=~sidebar-header~>
                <h1><a href=~".

Definition seg3 : string := Eval cbv in tilde_quotes
"index.html~>C Pro Docs</a></h1>
                <p>Camera Server Documentation</p>
            </div>
            <nav class=~sidebar-nav~>
                <ul class=~nav-menu~>
                    ".

Definition seg4 : string := Eval cbv in tilde_quotes
"
                </ul>
            </nav>
        </aside>
        
        <main class=~content~>
            <div class=~content-wrapper~>
                ".

Definition seg5 : string := Eval cbv in tilde_quotes
"
            </div>
            <footer class=~content-footer~>
                <p>Copyright © 2025 Rotoclear</p>
            </footer>
        </main>
        
        <button class=~mobile-menu-toggle~ id=~menuToggle~ aria-label=~Toggle menu~>☰</button>
    </div>
    
    <script src=~https://cdnjs.cloudflare.com/ajax/libs/highlight.js/11.9.0/highlight.min.js~></script>
    <script>
        // Initialize Mermaid
        mermaid.initialize({ 
            startOnLoad: true,
            theme: 'default',
            securityLevel: 'loose',
            fontFamily: 'Inter, sans-serif'
        });
        
        // Syntax highlighting
        hljs.highlightAll();
        
        // Mobile menu toggle
        const menuToggle = document.getElementById('menuToggle');
        const sidebar = document.querySelector('.sidebar');
        
        menuToggle.addEventListener('click', () => {
            sidebar.classList.toggle('active');
        });
        
        // Close sidebar when clicking outside on mobile
        document.addEventListener('click', (e) => {
            if (window.innerWidth <= 768 && 
                !sidebar.contains(e.target) && 
                !menuToggle.contains(e.target) &&
                sidebar.classList.contains('active')) {
                sidebar.classList.remove('active');
            }
        });
        
        // Smooth scroll for anchor links
        document.querySelectorAll('a[href^=~#~]').forEach(anchor => {
            anchor.addEventListener('click', function (e) {
                e.preventDefault();
                const target = document.querySelector(this.getAttribute('href'));
                if (target) {
                    target.scrollIntoView({ behavior: 'smooth' });
                }
            });
        });
    </script>
</body>
</html>".

(** ** The Markdown renderer *)

(** The pattern of [convert_md_to_html] closes a diagram block with a line
    feed and three backquotes. *)
Definition fence_open : string := "```mermaid".
Definition fence_close : string := newline +:+ "```".

(** [(.*?)\n```] under [re.DOTALL]: the group is the shortest text, of any
    characters, that a closing fence follows.  The result is the group and
    the text after the fence. *)
Fixpoint lazy_until_close (s : string) : option (string * string) :=
  match s with
  | EmptyString => None
  | String c s' =>
      if startswith s fence_close then Some (EmptyString, str_drop 4 s)
      else match lazy_until_close s' with
           | Some (body, rest) => Some (String c body, rest)
           | None => None
           end
  end.

(** [\s*\n(.*?)\n```]: the greedy [\s*] first takes as many white-space
    characters as it can and gives them back one at a time until a line
    feed and the rest of the pattern match.  Of the white-space characters
    only the line feed itself can be given back to the [\n]. *)
Fixpoint after_fence_open (s : string) : option (string * string) :=
  match s with
  | EmptyString => None
  | String c1 s1 =>
      let line_feed_here :=
        if Ascii.eqb c1 "010"%char then lazy_until_close s1 else None in
      if is_space c1
      then match after_fence_open s1 with
           | Some m => Some m
           | None => line_feed_here
           end
      else match s1 with
           | EmptyString => None
           | String c2 s2 =>
               if is_space2 c1 c2 then after_fence_open s2
               else match s2 with
                    | EmptyString => None
                    | String c3 s3 =>
                        if is_space3 c1 c2 c3 then after_fence_open s3
                        else None
                    end
           end
  end.

(** The whole pattern, tried at the start of [s]. *)
Definition match_mermaid (s : string) : option (string * string) :=
  if startswith s fence_open
  then after_fence_open (str_drop (String.length fence_open) s)
  else None.

Definition div_open : string :=
  Eval cbv in tilde_quotes "<div class=~mermaid~>".

Definition replace_mermaid (group1 : string) : string :=
  let mermaid_code := strip group1 in
  div_open +:+ newline +:+ mermaid_code +:+ newline +:+ "</div>".

(** [re.sub(pattern, replace_mermaid, s)]: every match, leftmost first, is
    replaced and the scan resumes after it.  A match is never empty, so a
    step consumes a character and [fuel] above the length of [s] is never
    exhausted. *)
Fixpoint sub_mermaid_fuel (fuel : nat) (s : string) : string :=
  match fuel with
  | O => s
  | S fuel' =>
      match s with
      | EmptyString => EmptyString
      | String c s' =>
          match match_mermaid s with
          | Some (group1, rest) =>
              replace_mermaid group1 +:+ sub_mermaid_fuel fuel' rest
          | None => String c (sub_mermaid_fuel fuel' s')
          end
      end
  end.

Definition sub_mermaid (s : string) : string :=
  sub_mermaid_fuel (S (String.length s)) s.

(** [markdown_convert] is [markdown.Markdown(extensions=[...]).convert]
    of the Python-Markdown package with the script's seven extensions. *)
Definition convert_md_to_html (markdown_convert : string -> string)
    (md_content : string) : string :=
  let md_content := sub_mermaid md_content in
  markdown_convert md_content.

(** ** Paths

    The script builds its paths with [pathlib]: [docs_dir / path],
    [output_dir / html_path], [output_dir.absolute()].  What it prints is
    the string of such a path, which pathlib normalises: on POSIX the
    empty components and the components [.] are dropped, a trailing
    separator with them, and a right operand that starts with the
    separator replaces the left one. *)

(** [s.split(sep)] for a non-empty [sep], scanning as [replace] does. *)
Fixpoint split_scan (sep : string) (skip : nat) (s : string) : list string :=
  match s with
  | EmptyString => [EmptyString]
  | String c s' =>
      match skip with
      | S k => split_scan sep k s'
      | O =>
          if startswith s sep
          then EmptyString :: split_scan sep (String.length sep - 1) s'
          else match split_scan sep 0 s' with
               | piece :: pieces => String c piece :: pieces
               | [] => [String c EmptyString]
               end
      end
  end.

Definition split (s sep : string) : list string := split_scan sep 0 s.

(** The components pathlib keeps of a path string. *)
Definition path_parts (s : string) : list string :=
  List.filter
    (fun part => negb (String.eqb part EmptyString)
                 && negb (String.eqb part "."))
    (split s "/").

(** The root of a path string: exactly two leading separators are kept,
    one or more than two are one. *)
Definition path_root (s : string) : string :=
  if startswith s "//" && negb (startswith s "///") then "//"
  else if startswith s "/" then "/"
  else EmptyString.

(** [str] of the path with the given root and components. *)
Definition path_str (root : string) (parts : list string) : string :=
  match root, parts with
  | EmptyString, [] => "."
  | _, _ => root +:+ join "/" parts
  end.

(** [str(Path(base) / p)] *)
Definition pathlib_join (base p : string) : string :=
  if startswith p "/" then path_str (path_root p) (path_parts p)
  else path_str (path_root base) (path_parts base ++ path_parts p).

(** ** The site builder

    The file system is two finite maps from path strings to contents: the
    sources below [docs/] and the output below [site/].  A key of the
    output map is the path string the script hands to [output_dir / _]:
    two spellings of one path are two keys, so what is said about the
    content of a file is said of paths without redundant components.

    An uncaught exception is the result [None].  The exceptions of the
    read side are part of the model: what [exists()] reports and [open]
    or [read] fail on.  Those of the write side are not (a file where
    [mkdir] needs a directory, a directory where a file is to be opened,
    a permission, a full disk): directories are not part of the state,
    the [mkdir] calls change nothing and a write succeeds.  A run of the
    model that returns [Some] is therefore a run of the script in which
    no write failed, and the properties of a build are stated of a build
    that completes. *)

(** What is at a path below [docs/]: a file whose text can be read, or
    something [exists()] reports but [open] and [read] fail on (a
    directory, bytes that are not UTF-8, a file without read permission). *)
Inductive Source : Type :=
  | Text (content : string)
  | Unreadable.

(** The state [build_site] works on: the files below [site/] by relative
    path, the list [processed_files], and the lines printed so far. *)
Record BuildState : Type := mkState {
  site : gmap string string;
  processed_files : list string;
  stdout : list string
}.

Definition print (line : string) (st : BuildState) : BuildState :=
  mkState (site st) (processed_files st) (stdout st ++ [line]).

Definition write_file (path text : string) (st : BuildState) : BuildState :=
  mkState (<[path := text]> (site st)) (processed_files st) (stdout st).

Definition record_processed (path : string) (st : BuildState) : BuildState :=
  mkState (site st) (processed_files st ++ [path]) (stdout st).

(** [Path.touch()]: creates an empty file, leaves an existing one as it
    is. *)
Definition touch (path : string) (st : BuildState) : BuildState :=
  match site st !! path with
  | Some _ => st
  | None => write_file path EmptyString st
  end.

(** [shutil.copytree(assets_src, assets_dst, dirs_exist_ok=True)]: every
    file below [docs/assets] is copied over the file of the same relative
    path below [site/assets]; other files stay. *)
Definition copytree (assets : gmap string string) (st : BuildState)
    : BuildState :=
  mkState (kmap (String.app "assets/") assets ∪ site st)
          (processed_files st) (stdout st).

(** A [for] loop whose body may raise: [None] is an uncaught exception. *)
Definition for_each {A : Type} (body : A -> BuildState -> option BuildState)
    : list A -> BuildState -> option BuildState :=
  fix loop (l : list A) (st : BuildState) : option BuildState :=
    match l with
    | [] => Some st
    | x :: rest =>
        match body x st with
        | Some st' => loop rest st'
        | None => None
        end
    end.

(** The block [# Calculate relative path depth for base_path] of
    [process_file]. *)
Definition relative_base_path (html_path : string) : string :=
  let depth := count html_path "/" in
  if 0 <? depth then str_mul "../" depth else "./".

Section Site.

(** The Markdown package, the module-level [NAV_STRUCTURE], the files
    below [docs/] by relative path, the files below [docs/assets] when
    that directory exists, and the working directory. *)
Variable markdown_convert : string -> string.
Variable nav : list NavItem.
Variable docs : gmap string Source.
Variable assets : option (gmap string string).
Variable cwd : string.

(** [md_path] is given by the string [path] of [docs_dir / path], and
    printed as pathlib prints that path; [output_dir.absolute()] is
    [Path(cwd) / "site"]. *)
Definition process_file (md_path html_path title : string)
    (st : BuildState) : option BuildState :=
  let st :=
    print ("Processing: " +:+ pathlib_join "docs" md_path
           +:+ " -> " +:+ html_path) st in
  let base_path := relative_base_path html_path in
  match docs !! md_path with
  | Some (Text md_content) =>
      let html_content := convert_md_to_html markdown_convert md_content in
      let nav_html := generate_nav_html nav html_path 0 base_path in
      let page_html :=
        fill_template get_html_template title base_path nav_html
          html_content in
      Some (write_file html_path page_html st)
  | _ => None
  end.

Fixpoint process_nav_item (item : NavItem) (parent_path : string)
    (st : BuildState) {struct item} : option BuildState :=
  match item with
  | Item title _ (Some children) =>
      for_each (fun child => process_nav_item child parent_path) children st
  | Item title (Some path) None =>
      if bool_decide (is_Some (docs !! path)) then
        let html_path := replace path ".md" ".html" in
        st ← process_file path html_path title st;
        Some (record_processed path st)
      else Some st
  | Item title None None => Some st
  end.

Definition build_site (site0 : gmap string string) : option BuildState :=
  let st := mkState site0 [] [] in
  let st := touch ".nojekyll" st in
  let st := match assets with
            | Some files => copytree files st
            | None => st
            end in
  st ← for_each (fun item => process_nav_item item EmptyString) nav st;
  let st :=
    print (newline +:+ "Build complete! Processed "
           +:+ str_of_nat (length (processed_files st)) +:+ " files.") st in
  let st := print ("Output directory: " +:+ pathlib_join cwd "site") st in
  Some st.

End Site.

(** * Vocabulary of the properties *)

(** ** Strings *)

(** [sub in s] *)
Fixpoint contains (s sub : string) : bool :=
  startswith s sub
  || match s with
     | EmptyString => false
     | String _ s' => contains s' sub
     end.

(** [c not in s] *)
Fixpoint lacks (c : ascii) (s : string) : bool :=
  match s with
  | EmptyString => true
  | String b s' => negb (Ascii.eqb c b) && lacks c s'
  end.

(** The number of characters [c] in [s]. *)
Fixpoint count_char (c : ascii) (s : string) : nat :=
  match s with
  | EmptyString => 0
  | String b s' => (if Ascii.eqb c b then 1 else 0) + count_char c s'
  end.

(** [p] differs from [s] at a position both have: whatever follows [s],
    the result does not start with [p]. *)
Fixpoint mismatch (s p : string) {struct p} : bool :=
  match p, s with
  | String a p', String b s' => negb (Ascii.eqb a b) || mismatch s' p'
  | _, _ => false
  end.

(** No occurrence of [p] starts inside [s], whatever follows [s]. *)
Fixpoint clean (s p : string) : bool :=
  match s with
  | EmptyString => true
  | String _ s' => mismatch s p && clean s' p
  end.

(** The lines of a text. *)
Definition split_lines (s : string) : list string := split s newline.

(** ** The page assembler *)

(** The substitutions of the page assembler as the specification words
    them: a list of placeholders with their values, applied in order. *)
Definition substitute_in_order (subs : list (string * string))
    (template : string) : string :=
  foldl (fun text sub => replace text sub.1 sub.2) template subs.

(** ** The navigation tree and its markup *)

(** The Page nodes of the tree, as (title, source path), in the order the
    builder visits them: the entries without children that declare a
    path. *)
Fixpoint pages_of (item : NavItem) : list (string * string) :=
  match item with
  | Item _ _ (Some children) => flat_map pages_of children
  | Item title (Some path) None => [(title, path)]
  | Item _ None None => []
  end.

Definition nav_pages (nav : list NavItem) : list (string * string) :=
  flat_map pages_of nav.

(** The output paths of the links the navigation renderer emits, in
    order: one per entry without children. *)
Fixpoint link_targets (item : NavItem) : list string :=
  match item with
  | Item _ _ (Some children) => flat_map link_targets children
  | Item _ path None => [replace (default EmptyString path) ".md" ".html"]
  end.

Definition nav_link_targets (nav : list NavItem) : list string :=
  flat_map link_targets nav.

(** No title and no path of the tree holds the character [c]. *)
Fixpoint item_lacks (c : ascii) (item : NavItem) : bool :=
  match item with
  | Item title path children =>
      lacks c title
      && lacks c (default EmptyString path)
      && match children with
         | Some children => forallb (item_lacks c) children
         | None => true
         end
  end.

Definition nav_lacks (c : ascii) (nav : list NavItem) : bool :=
  forallb (item_lacks c) nav.

(** A line of the navigation markup that opens a page link's list item
    and carries the active class. *)
Definition is_active_li (line : string) : bool :=
  startswith line li_item_open && contains line " active".

(** The number of links marked active in a piece of navigation markup. *)
Definition count_active_links (html : string) : nat :=
  length (filter (fun line => is_active_li line = true) (split_lines html)).

(** ** The Markdown renderer *)

(** The diagram of the specification's example: its text, the fenced
    block that holds it in a Markdown document, and the container element
    it is to become. *)
Definition diagram_body : string := "graph TD; A-->B".

Definition diagram_block : string :=
  fence_open +:+ newline +:+ diagram_body +:+ fence_close.

Definition diagram_container : string :=
  div_open +:+ newline +:+ diagram_body +:+ newline +:+ "</div>".

(** ** The site builder *)

(** The text of the page written for a Page node with the given source
    text. *)
Definition page_text (markdown_convert : string -> string)
    (nav : list NavItem) (title path md_content : string) : string :=
  let html_path := replace path ".md" ".html" in
  let base_path := relative_base_path html_path in
  fill_template get_html_template title base_path
    (generate_nav_html nav html_path 0 base_path)
    (convert_md_to_html markdown_convert md_content).

Definition source_text (docs : gmap string Source) (path : string) : string :=
  match docs !! path with
  | Some (Text md_content) => md_content
  | _ => EmptyString
  end.

(** One output file for one Page node: the source path with [.md]
    replaced by [.html], holding the page text. *)
Definition write_page (markdown_convert : string -> string)
    (nav : list NavItem) (docs : gmap string Source)
    (files : gmap string string) (page : string * string)
    : gmap string string :=
  <[replace page.2 ".md" ".html" :=
      page_text markdown_convert nav page.1 page.2 (source_text docs page.2)]>
    files.

Definition progress_line (page : string * string) : string :=
  "Processing: " +:+ pathlib_join "docs" page.2
  +:+ " -> " +:+ replace page.2 ".md" ".html".

Definition summary_line (n : nat) : string :=
  newline +:+ "Build complete! Processed " +:+ str_of_nat n +:+ " files.".

(** The Page nodes whose source exists, in traversal order. *)
Definition existing_pages (docs : gmap string Source) (nav : list NavItem)
    : list (string * string) :=
  filter (fun page => is_Some (docs !! page.2)) (nav_pages nav).

(** No Page node names something that exists and cannot be read. *)
Definition sources_readable (docs : gmap string Source)
    (pages : list (string * string)) : Prop :=
  Forall (fun page => docs !! page.2 <> Some Unreadable) pages.

(** The output directory before the pages are written: the marker file
    is there and the assets are copied over it. *)
Definition asset_files (assets : option (gmap string string))
    : gmap string string :=
  match assets with
  | Some files => kmap (String.app "assets/") files
  | None => ∅
  end.

Definition prepared_site (assets : option (gmap string string))
    (site0 : gmap string string) : gmap string string :=
  asset_files assets
  ∪ match site0 !! ".nojekyll" with
    | Some _ => site0
    | None => <[".nojekyll" := EmptyString]> site0
    end.

(** The builder's loop body for one Page node. *)
Definition process_page (markdown_convert : string -> string)
    (nav : list NavItem) (docs : gmap string Source)
    (page : string * string) (st : BuildState) : option BuildState :=
  process_nav_item markdown_convert nav docs (Page page.1 page.2)
    EmptyString st.

(** The state after the Page nodes [pages] were visited from [st]. *)
Definition after_pages (markdown_convert : string -> string)
    (nav : list NavItem) (docs : gmap string Source)
    (pages : list (string * string)) (st : BuildState) : BuildState :=
  let found := filter (fun page => is_Some (docs !! page.2)) pages in
  mkState (foldl (write_page markdown_convert nav docs) (site st) found)
          (processed_files st ++ found.*2)
          (stdout st ++ map progress_line found).

(** The state a completed build returns. *)
Definition built (markdown_convert : string -> string)
    (nav : list NavItem) (docs : gmap string Source)
    (assets : option (gmap string string)) (cwd : string)
    (site0 : gmap string string) : BuildState :=
  let found := existing_pages docs nav in
  mkState (foldl (write_page markdown_convert nav docs)
             (prepared_site assets site0) found)
          found.*2
          (map progress_line found
           ++ [summary_line (length found);
               "Output directory: " +:+ pathlib_join cwd "site"]).

(** ** A small site to run the builder on *)

#[global] Instance Source_eq_dec : EqDecision Source.
Proof. solve_decision. Defined.

Definition sample_nav : list NavItem :=
  [ Page "Home" "index.md";
    Folder "API Reference"
      [ Page "WebSocket API" "api/websocket-api.md";
        Page "HTTP API" "api/http-api.md" ];
    Item "About" None None ].

(** [api/http-api.md] is missing. *)
Definition sample_docs : gmap string Source :=
  <["index.md" := Text "# Home"]>
    (<["api/websocket-api.md" := Text "# WebSocket API"]> ∅).

Definition sample_assets : option (gmap string string) :=
  Some (<["style.css" := "body { margin: 0 }"]> ∅).

(** A stand-in for the Markdown package. *)
Definition sample_markdown (text : string) : string :=
  "<p>" +:+ text +:+ "</p>".

(** Two Page nodes with different source paths and the same output
    path. *)
Definition clash_nav : list NavItem :=
  [ Page "Guide" "guide.html.md";
    Page "Guide source" "guide.md.md" ].

(** ** Further vocabulary *)


(** The number of lines of a text that satisfy [P]. *)
Definition count_lines (P : string -> bool) (html : string) : nat :=
  length (filter (fun line => P line = true) (split_lines html)).

(** The number of folders of the tree, at any depth. *)
Fixpoint folders_of (item : NavItem) : nat :=
  match item with
  | Item _ _ (Some children) => S (sum_list_with folders_of children)
  | Item _ _ None => 0
  end.

Definition nav_folders (nav : list NavItem) : nat :=
  sum_list_with folders_of nav.

(** The anchor element the renderer emits for a page. *)
Definition link_line (base_path title path : string) : string :=
  a_open +:+ base_path +:+ replace path ".md" ".html" +:+ attr_close
  +:+ title +:+ "</a>".

(** The lines that open and close a list item and a sublist. *)
Definition opens_li (line : string) : bool := startswith line "<li ".
Definition closes_li (line : string) : bool := String.eqb line "</li>".
Definition opens_ul (line : string) : bool := startswith line "<ul ".
Definition closes_ul (line : string) : bool := String.eqb line "</ul>".

(** ** Paths and white space *)

(** A relative path without redundant components: no empty component
    (so no leading, trailing or doubled separator), no [.] and no [..].
    Two such paths name the same file only when they are the same
    string. *)
Definition plain_path (path : string) : bool :=
  forallb
    (fun part => negb (String.eqb part EmptyString)
                 && negb (String.eqb part ".")
                 && negb (String.eqb part ".."))
    (split path "/").




(** * Properties *)

(** ** Strings *)

Lemma str_app_cons c s t : String c s +:+ t = String c (s +:+ t).
Proof. reflexivity. Qed.

Lemma str_app_empty_r s : s +:+ EmptyString = s.
Proof. induction s as [|c s IH]; [reflexivity|]. rewrite str_app_cons. by f_equal. Qed.

Lemma str_app_assoc s t u : (s +:+ t) +:+ u = s +:+ t +:+ u.
Proof.
  induction s as [|c s IH]; [reflexivity|].
  rewrite !str_app_cons. by f_equal.
Qed.

Lemma startswith_app p r : startswith (p +:+ r) p = true.
Proof.
  induction p as [|a p IH]; [reflexivity|].
  rewrite str_app_cons. simpl. by rewrite Ascii.eqb_refl.
Qed.

Lemma str_drop_app p r : str_drop (String.length p) (p +:+ r) = r.
Proof. induction p as [|a p IH]; [by destruct r|]. by rewrite str_app_cons. Qed.

Lemma mismatch_startswith s p r :
  mismatch s p = true -> startswith (s +:+ r) p = false.
Proof.
  revert s. induction p as [|a p IH]; intros [|b s]; simpl; try done.
  rewrite ?str_app_cons. simpl. destruct (Ascii.eqb a b); simpl; auto.
Qed.

Lemma lacks_clean c p s : lacks c s = true -> clean s (String c p) = true.
Proof.
  induction s as [|b s IH]; [done|].
  simpl. intros [-> ?]%andb_true_iff. simpl. auto.
Qed.

Lemma lacks_app c s t : lacks c (s +:+ t) = lacks c s && lacks c t.
Proof.
  induction s as [|b s IH]; [reflexivity|].
  rewrite str_app_cons. simpl. rewrite IH. by rewrite andb_assoc.
Qed.

(** *** [replace] *)

Lemma replace_scan_skip old new k s :
  replace_scan old new k s = replace_scan old new 0 (str_drop k s).
Proof.
  revert k. induction s as [|c s IH]; intros [|k]; simpl; auto.
Qed.

Section Replace.

(** The pattern is not empty. *)
Variables (a : ascii) (o new : string).
Let old : string := String a o.

(** At an occurrence [replace] emits [new] and goes on after it. *)
Lemma replace_hit s :
  startswith s old = true ->
  replace s old new
  = new +:+ replace (str_drop (String.length old) s) old new.
Proof.
  destruct s as [|c s]; [done|]. intros H.
  unfold replace, old in *. cbn [replace_scan]. rewrite H.
  rewrite replace_scan_skip. cbn [String.length str_drop].
  by replace (S (String.length o) - 1) with (String.length o) by lia.
Qed.

(** Elsewhere it keeps the character. *)
Lemma replace_miss c s :
  startswith (String c s) old = false ->
  replace (String c s) old new = String c (replace s old new).
Proof.
  intros H. unfold replace, old in *. cbn [replace_scan]. by rewrite H.
Qed.

Lemma replace_app_hit r :
  replace (old +:+ r) old new = new +:+ replace r old new.
Proof.
  rewrite replace_hit by apply startswith_app. by rewrite str_drop_app.
Qed.

Lemma replace_app_clean s r :
  clean s old = true ->
  replace (s +:+ r) old new = s +:+ replace r old new.
Proof.
  induction s as [|c s IH]; [done|].
  cbn [clean]. intros [Hm Hc]%andb_true_iff.
  rewrite !str_app_cons, replace_miss.
  - f_equal. auto.
  - rewrite <- str_app_cons. by apply mismatch_startswith.
Qed.

Lemma replace_clean s : clean s old = true -> replace s old new = s.
Proof.
  intros H. rewrite <- (str_app_empty_r s) at 1.
  rewrite replace_app_clean by done. by rewrite str_app_empty_r.
Qed.

Lemma lacks_replace_scan c k s :
  lacks c s = true -> lacks c new = true ->
  lacks c (replace_scan old new k s) = true.
Proof.
  intros Hs Hn. revert k Hs.
  induction s as [|b s IH]; intros k Hs; [done|].
  cbn [lacks] in Hs. apply andb_true_iff in Hs as [Hb Hs].
  destruct k as [|k]; cbn [replace_scan]; [|auto].
  destruct (startswith (String b s) old).
  - rewrite lacks_app, Hn. simpl. auto.
  - cbn [lacks]. rewrite Hb. simpl. auto.
Qed.

Lemma split_scan_nonempty k s : split_scan old k s <> [].
Proof.
  revert k. induction s as [|c s IH]; intros [|k]; cbn [split_scan]; auto.
  destruct (startswith (String c s) old); [done|].
  by destruct (split_scan old 0 s).
Qed.

(** [s.replace(old, new)] is [new.join(s.split(old))]: the pieces of [s]
    do not depend on [new], and [new] stands between them as it is. *)
Lemma replace_scan_join_split k s :
  replace_scan old new k s = join new (split_scan old k s).
Proof.
  revert k. induction s as [|c s IH]; intros [|k]; cbn [replace_scan split_scan];
    auto.
  destruct (startswith (String c s) old).
  - rewrite IH. pose proof (split_scan_nonempty (String.length old - 1) s).
    by destruct (split_scan old (String.length old - 1) s).
  - rewrite IH. pose proof (split_scan_nonempty 0 s).
    by destruct (split_scan old 0 s) as [|piece [|piece' pieces]].
Qed.

Lemma replace_join_split s : replace s old new = join new (split s old).
Proof. apply replace_scan_join_split. Qed.

Lemma lacks_replace c s :
  lacks c s = true -> lacks c new = true ->
  lacks c (replace s old new) = true.
Proof. apply lacks_replace_scan. Qed.

End Replace.

(** *** The primitives on small inputs *)

Example replace_all_occurrences :
  replace "a.md/b.md" ".md" ".html" = "a.html/b.html".
Proof. reflexivity. Qed.

Example replace_does_not_rescan : replace "aaa" "aa" "a" = "aa".
Proof. reflexivity. Qed.

Example replace_empty_pattern : replace "abc" EmptyString "-" = "-a-b-c-".
Proof. reflexivity. Qed.

Example count_non_overlapping : count "aaaa" "aa" = 2.
Proof. reflexivity. Qed.

Example strip_both_ends :
  strip (" " +:+ newline +:+ "a b " +:+ newline) = "a b".
Proof. reflexivity. Qed.

Example join_three : join ", " ["a"; "b"; "c"] = "a, b, c".
Proof. reflexivity. Qed.

Example str_of_nat_12 : str_of_nat 12 = "12" /\ str_of_nat 0 = "0".
Proof. split; reflexivity. Qed.

(** ** The page shell and its placeholders *)

Lemma template_segments :
  get_html_template
  = seg0 +:+ TITLE +:+ seg1 +:+ BASE_PATH +:+ seg2 +:+ BASE_PATH +:+ seg3
    +:+ NAVIGATION +:+ seg4 +:+ CONTENT +:+ seg5.
Proof. vm_compute. reflexivity. Qed.

(** The base-path placeholder stands twice in the shell, the others once. *)
Lemma template_placeholder_counts :
  count get_html_template TITLE = 1
  /\ count get_html_template BASE_PATH = 2
  /\ count get_html_template NAVIGATION = 1
  /\ count get_html_template CONTENT = 1.
Proof. repeat split; vm_compute; reflexivity. Qed.

Ltac pass_over :=
  rewrite replace_app_clean
    by first [ vm_compute; reflexivity | apply lacks_clean; assumption ].

Ltac pass_rest :=
  match goal with
  | |- context [replace ?s (String ?a ?o) ?n] =>
      rewrite (replace_clean a o n s) by (vm_compute; reflexivity)
  end.

Ltac run_replace :=
  repeat first [ rewrite replace_app_hit | pass_over | pass_rest ].

(** With values that hold no opening brace, the four substitutions put
    each value where its placeholder stood.  The content is arbitrary. *)
Lemma fill_template_splice title base_path nav_html html_content :
  lacks "{" title = true ->
  lacks "{" base_path = true ->
  lacks "{" nav_html = true ->
  fill_template get_html_template title base_path nav_html html_content
  = seg0 +:+ title +:+ seg1 +:+ base_path +:+ seg2 +:+ base_path +:+ seg3
    +:+ nav_html +:+ seg4 +:+ html_content +:+ seg5.
Proof.
  intros Ht Hb Hn. unfold fill_template. rewrite template_segments.
  unfold TITLE, BASE_PATH, NAVIGATION, CONTENT.
  run_replace. reflexivity.
Qed.

(** A title that is itself the content placeholder is replaced by the
    content: values substituted early are scanned by the later steps. *)
Lemma title_token_replaced base_path nav_html html_content :
  lacks "{" base_path = true ->
  lacks "{" nav_html = true ->
  fill_template get_html_template CONTENT base_path nav_html html_content
  = seg0 +:+ html_content +:+ seg1 +:+ base_path +:+ seg2 +:+ base_path
    +:+ seg3 +:+ nav_html +:+ seg4 +:+ html_content +:+ seg5.
Proof.
  intros Hb Hn. unfold fill_template. rewrite template_segments.
  unfold TITLE, BASE_PATH, NAVIGATION, CONTENT.
  run_replace. reflexivity.
Qed.

(** C1. The page assembler applies four literal replacements to the
    shell, one per placeholder and each once, in the order title, base
    path, navigation, content; with values free of opening braces the
    result is the shell with every placeholder replaced by its value. *)
Theorem page_assembler_order title base_path nav_html html_content :
  (forall template,
     fill_template template title base_path nav_html html_content
     = substitute_in_order
         [(TITLE, title); (BASE_PATH, base_path);
          (NAVIGATION, nav_html); (CONTENT, html_content)] template)
  /\ NoDup [TITLE; BASE_PATH; NAVIGATION; CONTENT]
  /\ (lacks "{" title = true ->
      lacks "{" base_path = true ->
      lacks "{" nav_html = true ->
      fill_template get_html_template title base_path nav_html html_content
      = seg0 +:+ title +:+ seg1 +:+ base_path +:+ seg2 +:+ base_path
        +:+ seg3 +:+ nav_html +:+ seg4 +:+ html_content +:+ seg5).
Proof.
  split; [reflexivity|]. split.
  - apply (bool_decide_unpack _). vm_compute. exact I.
  - apply fill_template_splice.
Qed.

Lemma page_assembler_order_witness :
  fill_template get_html_template "Home" "./" "<li>Home</li>" "<p>Hi</p>"
  = seg0 +:+ "Home" +:+ seg1 +:+ "./" +:+ seg2 +:+ "./" +:+ seg3
    +:+ "<li>Home</li>" +:+ seg4 +:+ "<p>Hi</p>" +:+ seg5.
Proof.
  apply (page_assembler_order "Home" "./" "<li>Home</li>" "<p>Hi</p>");
    reflexivity.
Defined.

(** C9 as stated fails: a placeholder inside the content stays in the
    page as it is. *)
Lemma content_token_not_substituted :
  let page :=
    fill_template get_html_template "Home" "./" "<li>Home</li>"
      "<p>{{TITLE}}</p>" in
  page = seg0 +:+ "Home" +:+ seg1 +:+ "./" +:+ seg2 +:+ "./" +:+ seg3
         +:+ "<li>Home</li>" +:+ seg4 +:+ "<p>{{TITLE}}</p>" +:+ seg5
  /\ contains page TITLE = true
  /\ page <> seg0 +:+ "Home" +:+ seg1 +:+ "./" +:+ seg2 +:+ "./" +:+ seg3
             +:+ "<li>Home</li>" +:+ seg4 +:+ "<p>Home</p>" +:+ seg5.
Proof.
  split; [vm_compute; reflexivity|]. split; [vm_compute; reflexivity|].
  apply (bool_decide_unpack _). vm_compute. exact I.
Qed.

(** C9, amended. The content is substituted last and inserted text is
    not scanned again: whatever the content holds, placeholders included,
    it stands in the page unchanged, between pieces that do not depend on
    it.  A placeholder is replaced by accident only inside a value
    substituted earlier: a title equal to the content placeholder becomes
    the content. *)
Theorem content_inserted_verbatim title base_path nav_html html_content :
  fill_template get_html_template title base_path nav_html html_content
  = join html_content
      (split
         (replace
            (replace (replace get_html_template TITLE title)
               BASE_PATH base_path)
            NAVIGATION nav_html)
         CONTENT)
  /\ (lacks "{" title = true ->
      lacks "{" base_path = true ->
      lacks "{" nav_html = true ->
      fill_template get_html_template title base_path nav_html html_content
      = (seg0 +:+ title +:+ seg1 +:+ base_path +:+ seg2 +:+ base_path
         +:+ seg3 +:+ nav_html +:+ seg4)
        +:+ html_content +:+ seg5)
  /\ (lacks "{" base_path = true ->
      lacks "{" nav_html = true ->
      fill_template get_html_template CONTENT base_path nav_html html_content
      = seg0 +:+ html_content +:+ seg1 +:+ base_path +:+ seg2 +:+ base_path
        +:+ seg3 +:+ nav_html +:+ seg4 +:+ html_content +:+ seg5).
Proof.
  split; [|split].
  - unfold fill_template, CONTENT. apply replace_join_split.
  - intros Ht Hb Hn. rewrite fill_template_splice by done.
    by rewrite !str_app_assoc.
  - apply title_token_replaced.
Qed.

Lemma content_inserted_verbatim_witness :
  fill_template get_html_template "Home" "./" "<li>Home</li>"
    "{{TITLE}}{{BASE_PATH}}{{NAVIGATION}}{{CONTENT}}"
  = (seg0 +:+ "Home" +:+ seg1 +:+ "./" +:+ seg2 +:+ "./" +:+ seg3
     +:+ "<li>Home</li>" +:+ seg4)
    +:+ "{{TITLE}}{{BASE_PATH}}{{NAVIGATION}}{{CONTENT}}" +:+ seg5.
Proof.
  apply (content_inserted_verbatim "Home" "./" "<li>Home</li>"
           "{{TITLE}}{{BASE_PATH}}{{NAVIGATION}}{{CONTENT}}");
    reflexivity.
Defined.

(** ** The base-path prefix *)

Lemma count_separator s : count s "/" = count_char "/" s.
Proof.
  unfold count. induction s as [|c s IH]; [reflexivity|].
  cbn [count_scan count_char startswith String.length].
  rewrite andb_true_r. destruct (Ascii.eqb "/" c); simpl; auto.
Qed.

(** Repetition is the concatenation of that many copies. *)
Lemma str_mul_concat s n :
  str_mul s n = String.concat EmptyString (replicate n s).
Proof.
  induction n as [|n IH]; [reflexivity|].
  cbn [str_mul replicate]. rewrite IH.
  destruct n as [|n]; [apply str_app_empty_r|reflexivity].
Qed.

Lemma str_length_app s t :
  String.length (s +:+ t) = String.length s + String.length t.
Proof.
  induction s as [|c s IH]; [reflexivity|].
  rewrite str_app_cons. cbn [String.length]. by rewrite IH.
Qed.

Lemma str_mul_length s n :
  String.length (str_mul s n) = n * String.length s.
Proof.
  induction n as [|n IH]; [reflexivity|].
  cbn [str_mul]. rewrite str_length_app, IH. lia.
Qed.

(** C3. The base-path prefix is one parent step per separator character
    of the output path, and the current directory when there is none: as
    many copies of [../] as the path has separators, three characters for
    each. *)
Theorem base_path_per_separator html_path :
  relative_base_path html_path
  = (if count_char "/" html_path =? 0 then "./"
     else String.concat EmptyString
            (replicate (count_char "/" html_path) "../"))
  /\ String.length (relative_base_path html_path)
     = (if count_char "/" html_path =? 0 then 2
        else 3 * count_char "/" html_path)
  /\ relative_base_path "index.html" = "./"
  /\ relative_base_path "api/websocket-api.html" = "../"
  /\ relative_base_path "api/v2/websocket-api.html" = "../../"
  /\ relative_base_path "a/b/c/index.html" = "../../../".
Proof.
  assert (relative_base_path html_path
          = if count_char "/" html_path =? 0 then "./"
            else str_mul "../" (count_char "/" html_path)) as Hbase.
  { unfold relative_base_path. cbv zeta. rewrite count_separator.
    by destruct (count_char "/" html_path). }
  split; [|split; [|by repeat split]].
  - rewrite Hbase. by rewrite str_mul_concat.
  - rewrite Hbase. destruct (count_char "/" html_path) as [|n]; [reflexivity|].
    cbn [Nat.eqb]. rewrite str_mul_length. cbn [String.length]. lia.
Qed.

Lemma str_mul_lacks c s n : lacks c s = true -> lacks c (str_mul s n) = true.
Proof.
  intros H. induction n as [|n IH]; [done|].
  cbn [str_mul]. by rewrite lacks_app, H, IH.
Qed.

Lemma relative_base_path_lacks c html_path :
  lacks c "./" = true -> lacks c (relative_base_path html_path) = true.
Proof.
  intros H. unfold relative_base_path. cbv zeta.
  destruct (0 <? count html_path "/"); [|done].
  apply str_mul_lacks. revert H. simpl.
  destruct (Ascii.eqb c "."), (Ascii.eqb c "/"); done.
Qed.

(** ** The diagram pre-pass of the Markdown renderer *)

Lemma str_drop_length n s : String.length (str_drop n s) <= String.length s.
Proof.
  revert s. induction n as [|n IH]; intros [|c s]; simpl; try lia.
  specialize (IH s). lia.
Qed.

Lemma lazy_until_close_shorter s body rest :
  lazy_until_close s = Some (body, rest) ->
  String.length rest < String.length s.
Proof.
  revert body rest. induction s as [|c s IH]; intros body rest; [done|].
  cbn [lazy_until_close].
  destruct (startswith (String c s) fence_close) eqn:E.
  - change (str_drop 4 (String c s)) with (str_drop 3 s). intros H.
    assert (rest = str_drop 3 s) as -> by congruence.
    pose proof (str_drop_length 3 s). cbn [String.length]. lia.
  - destruct (lazy_until_close s) as [[b r]|] eqn:Er; [|done].
    intros H. assert (rest = r) as -> by congruence.
    specialize (IH b r eq_refl). cbn [String.length]. lia.
Qed.

Lemma after_fence_open_shorter s body rest :
  after_fence_open s = Some (body, rest) ->
  String.length rest < String.length s.
Proof.
  remember (String.length s) as n eqn:Hn.
  assert (String.length s <= n) as Hle by lia. clear Hn.
  revert s Hle body rest.
  induction n as [|n IH]; intros [|c1 s1] Hle body rest; try done.
  { cbn in Hle. lia. }
  cbn [String.length] in Hle. cbn [after_fence_open].
  destruct (is_space c1).
  - destruct (after_fence_open s1) as [[b r]|] eqn:E.
    + intros H. assert (rest = r) as -> by congruence.
      apply IH in E; [|lia]. cbn [String.length]. lia.
    + destruct (Ascii.eqb c1 "010"); [|done].
      intros H%lazy_until_close_shorter. cbn [String.length]. lia.
  - destruct s1 as [|c2 s2]; [done|]. cbn [String.length] in Hle.
    destruct (is_space2 c1 c2).
    { intros H%IH; [|lia]. cbn [String.length]. lia. }
    destruct s2 as [|c3 s3]; [done|]. cbn [String.length] in Hle.
    destruct (is_space3 c1 c2 c3); [|done].
    intros H%IH; [|lia]. cbn [String.length]. lia.
Qed.

Lemma match_mermaid_shorter s body rest :
  match_mermaid s = Some (body, rest) ->
  String.length rest < String.length s.
Proof.
  unfold match_mermaid. destruct (startswith s fence_open); [|done].
  intros H%after_fence_open_shorter.
  pose proof (str_drop_length (String.length fence_open) s). lia.
Qed.

(** Any fuel above the length of the text gives the same result. *)
Lemma sub_mermaid_fuel_enough f1 f2 s :
  String.length s < f1 -> String.length s < f2 ->
  sub_mermaid_fuel f1 s = sub_mermaid_fuel f2 s.
Proof.
  revert f2 s. induction f1 as [|f1 IH]; intros [|f2] s H1 H2; try lia.
  destruct s as [|c s]; [reflexivity|].
  cbn [sub_mermaid_fuel].
  destruct (match_mermaid (String c s)) as [[body rest]|] eqn:E.
  - apply match_mermaid_shorter in E. f_equal. apply IH; lia.
  - f_equal. simpl in *. apply IH; lia.
Qed.

Lemma sub_mermaid_match s body rest :
  match_mermaid s = Some (body, rest) ->
  sub_mermaid s = replace_mermaid body +:+ sub_mermaid rest.
Proof.
  intros E. unfold sub_mermaid at 1.
  destruct s as [|c s]; [done|].
  cbn [sub_mermaid_fuel]. rewrite E. f_equal.
  apply match_mermaid_shorter in E.
  apply sub_mermaid_fuel_enough; simpl in *; lia.
Qed.

Lemma sub_mermaid_skip c s :
  match_mermaid (String c s) = None ->
  sub_mermaid (String c s) = String c (sub_mermaid s).
Proof.
  intros E. unfold sub_mermaid at 1.
  cbn [sub_mermaid_fuel]. by rewrite E.
Qed.

(** Text without a backquote holds no diagram block and is kept. *)
Lemma sub_mermaid_app_lacks pre r :
  lacks "`" pre = true -> sub_mermaid (pre +:+ r) = pre +:+ sub_mermaid r.
Proof.
  induction pre as [|c pre IH]; [done|].
  cbn [lacks]. intros [Hc Hpre]%andb_true_iff.
  rewrite !str_app_cons, sub_mermaid_skip; [by rewrite IH|].
  unfold match_mermaid. cbn [startswith fence_open].
  by rewrite (negb_true_iff _ ) in Hc; rewrite Hc.
Qed.


Lemma match_diagram_block post :
  match_mermaid (diagram_block +:+ post) = Some (diagram_body, post).
Proof. reflexivity. Qed.

Lemma contains_app_clean s r p :
  clean s p = true -> contains (s +:+ r) p = contains r p.
Proof.
  induction s as [|c s IH]; [done|].
  cbn [clean]. intros [Hm Hc]%andb_true_iff.
  rewrite str_app_cons. cbn [contains]. rewrite <- str_app_cons.
  by rewrite mismatch_startswith, IH.
Qed.

(** A fence that is never closed is left alone, and so is a fence with
    another tag. *)
Example unclosed_block_is_kept :
  sub_mermaid (fence_open +:+ newline +:+ diagram_body)
  = fence_open +:+ newline +:+ diagram_body
  /\ sub_mermaid ("```python" +:+ newline +:+ "pass" +:+ fence_close)
     = "```python" +:+ newline +:+ "pass" +:+ fence_close.
Proof. split; reflexivity. Qed.

(** Every block of a document is rewritten. *)
Example two_blocks_are_rewritten :
  sub_mermaid (diagram_block +:+ newline +:+ "and" +:+ newline
               +:+ diagram_block)
  = diagram_container +:+ newline +:+ "and" +:+ newline +:+ diagram_container.
Proof. reflexivity. Qed.

(** The greedy white space gives back the line feed the pattern needs:
    an empty diagram is matched. *)
Example empty_block_is_matched :
  sub_mermaid (fence_open +:+ newline +:+ fence_close)
  = div_open +:+ newline +:+ newline +:+ "</div>".
Proof. reflexivity. Qed.

(** A no-break space and an ideographic space are white space too. *)
Example unicode_space_is_trimmed :
  strip (String "194" (String "160" EmptyString) +:+ diagram_body
         +:+ String "227" (String "128" (String "128" EmptyString)))
  = diagram_body.
Proof. reflexivity. Qed.

(** White space around the diagram text is trimmed away. *)
Example padded_diagram_is_trimmed :
  sub_mermaid (fence_open +:+ "  " +:+ newline +:+ newline +:+ "  "
               +:+ diagram_body +:+ " " +:+ newline +:+ fence_close)
  = diagram_container.
Proof. reflexivity. Qed.

(** ** The traversal of the site builder *)

Lemma NavItem_nested_ind (P : NavItem -> Prop) :
  (forall title path, P (Item title path None)) ->
  (forall title path children,
     Forall P children -> P (Item title path (Some children))) ->
  forall item, P item.
Proof.
  intros Hleaf Hfolder. fix IH 1. intros [title path [children|]].
  - apply Hfolder. induction children as [|c cs IHcs]; constructor.
    + apply IH.
    + apply IHcs.
  - apply Hleaf.
Qed.

Lemma for_each_cons {A} (body : A -> BuildState -> option BuildState) x l st :
  for_each body (x :: l) st = body x st ≫= for_each body l.
Proof. simpl. by destruct (body x st). Qed.

Lemma for_each_app {A} (body : A -> BuildState -> option BuildState) l1 l2 st :
  for_each body (l1 ++ l2) st = for_each body l1 st ≫= for_each body l2.
Proof.
  revert st. induction l1 as [|x l1 IH]; intros st; [done|].
  simpl. destruct (body x st); [apply IH|done].
Qed.

Section SiteFacts.

Variable markdown_convert : string -> string.
Variable nav : list NavItem.
Variable docs : gmap string Source.

Abbreviation visit_item := (process_nav_item markdown_convert nav docs).
Abbreviation visit_page := (process_page markdown_convert nav docs).
Abbreviation put_page := (write_page markdown_convert nav docs).
Abbreviation visited := (after_pages markdown_convert nav docs).

(** The recursion over the tree visits the Page nodes in order and does
    nothing else. *)
Lemma process_nav_item_pages item parent_path st :
  visit_item item parent_path st
  = for_each visit_page (pages_of item) st.
Proof.
  revert st. induction item as [title path|title path children IH]
    using NavItem_nested_ind; intros st.
  - destruct path as [path|]; [|reflexivity].
    cbn [pages_of for_each]. unfold process_page.
    change (visit_item
              (Page (title, path).1 (title, path).2) EmptyString st)
      with (visit_item (Item title (Some path) None) parent_path st).
    by destruct (visit_item _ _ _).
  - assert (forall st,
              visit_item (Item title path (Some children)) parent_path st
              = for_each (fun child => visit_item child parent_path)
                  children st) as -> by (by destruct path).
    assert (pages_of (Item title path (Some children))
            = flat_map pages_of children) as -> by (by destruct path).
    revert st. induction IH as [|child children Hchild _ IHchildren];
      intros st; [reflexivity|].
    rewrite for_each_cons. cbv beta. rewrite Hchild. cbn [flat_map].
    rewrite for_each_app.
    destruct (for_each _ (pages_of child) st); [apply IHchildren|done].
Qed.

Lemma for_each_nav_pages items parent_path st :
  for_each (fun item => visit_item item parent_path) items st
  = for_each visit_page (nav_pages items) st.
Proof.
  unfold nav_pages. revert st. induction items as [|item items IH];
    intros st; [reflexivity|].
  rewrite for_each_cons. cbv beta.
  rewrite process_nav_item_pages. cbn [flat_map].
  rewrite for_each_app.
  destruct (for_each _ (pages_of item) st); [apply IH|done].
Qed.

(** The three outcomes of one Page node. *)
Lemma process_page_missing title path st :
  docs !! path = None -> visit_page (title, path) st = Some st.
Proof.
  intros H. unfold process_page. cbn.
  rewrite bool_decide_eq_false_2; [done|]. rewrite H. by intros [? ?].
Qed.

Lemma process_page_unreadable title path st :
  docs !! path = Some Unreadable -> visit_page (title, path) st = None.
Proof.
  intros H. unfold process_page. cbn.
  rewrite bool_decide_eq_true_2 by (by rewrite H).
  unfold process_file. by rewrite H.
Qed.

Lemma process_page_text title path md_content st :
  docs !! path = Some (Text md_content) ->
  visit_page (title, path) st
  = Some (record_processed path
            (write_file (replace path ".md" ".html")
               (page_text markdown_convert nav title path md_content)
               (print (progress_line (title, path)) st))).
Proof.
  intros H. unfold process_page. cbn.
  rewrite bool_decide_eq_true_2 by (by rewrite H).
  unfold process_file. by rewrite H.
Qed.


(** *** The loop over the Page nodes *)

Lemma visited_nil st : visited [] st = st.
Proof.
  destruct st. unfold after_pages. cbn. by rewrite !app_nil_r.
Qed.

Lemma visited_cons_missing page pages st :
  docs !! page.2 = None -> visited (page :: pages) st = visited pages st.
Proof.
  intros H. unfold after_pages. cbv zeta.
  rewrite filter_cons_False; [done|]. rewrite H. by intros [? ?].
Qed.

Lemma visited_cons_text title path md_content pages st :
  docs !! path = Some (Text md_content) ->
  visited ((title, path) :: pages) st
  = visited pages
      (record_processed path
         (write_file (replace path ".md" ".html")
            (page_text markdown_convert nav title path md_content)
            (print (progress_line (title, path)) st))).
Proof.
  intros H. unfold after_pages. cbv zeta.
  rewrite filter_cons_True by (by cbn; rewrite H).
  cbn. unfold write_page at 2, source_text. cbn. rewrite H.
  by rewrite <- !app_assoc.
Qed.

Lemma for_each_pages_total pages st :
  sources_readable docs pages ->
  for_each visit_page pages st = Some (visited pages st).
Proof.
  intros Hall. revert st.
  induction Hall as [|[title path] pages Hpage _ IH]; intros st.
  - by rewrite visited_nil.
  - rewrite for_each_cons. cbn in Hpage.
    destruct (docs !! path) as [[md_content|]|] eqn:E; [| done |].
    + rewrite (process_page_text _ _ md_content) by done. cbn.
      rewrite IH. by rewrite (visited_cons_text _ _ md_content).
    + rewrite process_page_missing by done. cbn.
      rewrite IH. by rewrite visited_cons_missing.
Qed.

Lemma for_each_pages_inv pages st st' :
  for_each visit_page pages st = Some st' ->
  st' = visited pages st /\ sources_readable docs pages.
Proof.
  revert st. induction pages as [|[title path] pages IH]; intros st.
  - intros [= <-]. split; [by rewrite visited_nil | constructor].
  - rewrite for_each_cons.
    destruct (docs !! path) as [[md_content|]|] eqn:E.
    + rewrite (process_page_text _ _ md_content) by done. cbn.
      intros [-> Hall]%IH. split.
      * by rewrite (visited_cons_text _ _ md_content).
      * constructor; [cbn; by rewrite E | done].
    + by rewrite process_page_unreadable.
    + rewrite process_page_missing by done. cbn.
      intros [-> Hall]%IH. split.
      * by rewrite visited_cons_missing.
      * constructor; [cbn; by rewrite E | done].
Qed.

(** *** The whole build *)

Variable assets : option (gmap string string).
Variable cwd : string.

Abbreviation build := (build_site markdown_convert nav docs assets cwd).
Abbreviation outcome := (built markdown_convert nav docs assets cwd).

Lemma build_site_unfold site0 :
  build site0
  = st ← for_each visit_page (nav_pages nav)
         (mkState (prepared_site assets site0) [] []);
    Some (print ("Output directory: " +:+ pathlib_join cwd "site")
            (print (summary_line (length (processed_files st))) st)).
Proof.
  unfold build_site. cbv zeta. rewrite for_each_nav_pages.
  f_equal. unfold prepared_site, asset_files, touch, copytree, write_file.
  cbn. destruct (site0 !! ".nojekyll"), assets; cbn;
    by rewrite ?(left_id_L ∅ (∪)).
Qed.

Lemma outcome_visited site0 :
  outcome site0
  = let st := visited (nav_pages nav)
                (mkState (prepared_site assets site0) [] []) in
    print ("Output directory: " +:+ pathlib_join cwd "site")
      (print (summary_line (length (processed_files st))) st).
Proof.
  unfold built, after_pages, existing_pages, print. cbn.
  by rewrite length_fmap, <- app_assoc.
Qed.

(** A run of the model completes exactly when every source that exists
    can be read, and then returns the state [built] describes. *)
Lemma build_site_total site0 :
  sources_readable docs (nav_pages nav) ->
  build site0 = Some (outcome site0).
Proof.
  intros Hall. rewrite build_site_unfold, for_each_pages_total by done.
  cbn. by rewrite outcome_visited.
Qed.

Lemma build_site_inv site0 st :
  build site0 = Some st ->
  st = outcome site0 /\ sources_readable docs (nav_pages nav).
Proof.
  rewrite build_site_unfold.
  destruct (for_each _ _ _) as [st'|] eqn:E; [|done].
  apply for_each_pages_inv in E as [-> Hall]. cbn.
  intros [= <-]. by rewrite outcome_visited.
Qed.

End SiteFacts.

(** ** The suffix replacement *)

Lemma str_app_empty_l t : EmptyString +:+ t = t.
Proof. reflexivity. Qed.

Lemma startswith_length s p :
  startswith s p = true -> String.length p <= String.length s.
Proof.
  revert s. induction p as [|a p IH]; intros [|b s]; simpl; try done; try lia.
  intros [_ H%IH]%andb_true_iff. lia.
Qed.

(** [.md] does not overlap itself: an occurrence that starts before
    another one lies wholly before it. *)
Lemma startswith_md_inside c a b :
  startswith (String c a +:+ ".md" +:+ b) ".md" = startswith (String c a) ".md".
Proof.
  destruct a as [|c2 [|c3 a]]; rewrite ?str_app_cons, ?str_app_empty_l; cbn;
    destruct (Ascii.eqb "." c); try done; cbn.
  all: by destruct (Ascii.eqb "m" c2).
Qed.

Lemma replace_scan_md a b k :
  k <= String.length a ->
  replace_scan ".md" ".html" k (a +:+ ".md" +:+ b)
  = replace_scan ".md" ".html" k a +:+ ".html"
    +:+ replace_scan ".md" ".html" 0 b.
Proof.
  revert k. induction a as [|c a IH]; intros k Hk.
  - assert (k = 0) as -> by (simpl in Hk; lia). reflexivity.
  - rewrite str_app_cons. destruct k as [|k]; cbn [replace_scan].
    + rewrite <- str_app_cons, startswith_md_inside.
      destruct (startswith (String c a) ".md") eqn:E.
      * apply startswith_length in E. cbn in E.
        rewrite IH by (simpl; lia). by rewrite !str_app_assoc.
      * rewrite (str_app_cons c (replace_scan ".md" ".html" 0 a)).
        f_equal. apply IH. lia.
    + apply IH. simpl in Hk. lia.
Qed.

(** Every occurrence of [.md] is replaced, wherever it stands. *)
Lemma md_replaced_everywhere a b :
  replace (a +:+ ".md" +:+ b) ".md" ".html"
  = replace a ".md" ".html" +:+ ".html" +:+ replace b ".md" ".html".
Proof. unfold replace. apply replace_scan_md. lia. Qed.

Lemma startswith_replaced c s :
  startswith (String c s) ".md" = false ->
  startswith (String c (replace_scan ".md" ".html" 0 s)) ".md" = false.
Proof.
  cbn [startswith]. destruct (Ascii.eqb "." c); [|done]. cbn [andb].
  destruct s as [|c2 s]; [done|]. cbn [replace_scan].
  destruct (startswith (String c2 s) ".md"); [done|].
  cbn [startswith]. destruct (Ascii.eqb "m" c2); [|done]. cbn [andb].
  destruct s as [|c3 s]; [done|]. cbn [replace_scan].
  destruct (startswith (String c3 s) ".md"); [done|].
  cbn [startswith]. by rewrite !andb_true_r.
Qed.

Lemma no_md_left_scan k s :
  contains (replace_scan ".md" ".html" k s) ".md" = false.
Proof.
  revert k. induction s as [|c s IH]; intros [|k]; cbn [replace_scan]; auto.
  destruct (startswith (String c s) ".md") eqn:E.
  - rewrite !str_app_cons, str_app_empty_l. cbn. apply IH.
  - cbn [contains]. by rewrite startswith_replaced, IH.
Qed.

(** No [.md] is left in an output path. *)
Lemma no_md_left path : contains (replace path ".md" ".html") ".md" = false.
Proof. apply no_md_left_scan. Qed.

(** ** The files the build writes *)

Section Output.

Variable markdown_convert : string -> string.
Variable nav : list NavItem.
Variable docs : gmap string Source.
Variable assets : option (gmap string string).
Variable cwd : string.

Abbreviation put_page := (write_page markdown_convert nav docs).
Abbreviation build := (build_site markdown_convert nav docs assets cwd).
Abbreviation outcome := (built markdown_convert nav docs assets cwd).

Lemma foldl_put_page_is_Some pages files key :
  is_Some (files !! key)
  \/ (exists page, page ∈ pages /\ replace page.2 ".md" ".html" = key) ->
  is_Some (foldl put_page files pages !! key).
Proof.
  revert files. induction pages as [|page pages IH]; intros files.
  - intros [H|(page & []%elem_of_nil & _)]. exact H.
  - intros H. cbn [foldl]. apply IH.
    destruct H as [H|(page' & [->|Hin]%elem_of_cons & Hkey)].
    + left. unfold write_page. by apply lookup_insert_is_Some'; right.
    + left. unfold write_page. rewrite Hkey.
      apply lookup_insert_is_Some'. by left.
    + right. eauto.
Qed.

(** The page files override what was there; nothing else changes. *)
Lemma foldl_put_page_union pages files :
  foldl put_page files pages = foldl put_page ∅ pages ∪ files.
Proof.
  revert files. induction pages as [|page pages IH]; intros files.
  - cbn. by rewrite (left_id_L ∅ (∪)).
  - cbn [foldl]. rewrite IH, (IH (put_page ∅ page)).
    unfold write_page. rewrite insert_empty, <- (assoc_L (∪)).
    by rewrite <- insert_union_singleton_l.
Qed.

Lemma prepared_site_marker site0 :
  is_Some (prepared_site assets site0 !! ".nojekyll").
Proof.
  unfold prepared_site. apply lookup_union_is_Some. right.
  destruct (site0 !! ".nojekyll") eqn:E; [by rewrite E|].
  by rewrite lookup_insert_eq.
Qed.

Lemma prepared_site_again files :
  is_Some (files !! ".nojekyll") ->
  prepared_site assets files = asset_files assets ∪ files.
Proof. intros [? H]. unfold prepared_site. by rewrite H. Qed.

Lemma outcome_again site0 : outcome (site (outcome site0)) = outcome site0.
Proof.
  unfold built at 1 3. cbv zeta. f_equal. cbn [site built].
  set (found := existing_pages docs nav).
  rewrite (foldl_put_page_union found (prepared_site assets site0)).
  set (written := foldl put_page ∅ found).
  rewrite prepared_site_again.
  2:{ apply lookup_union_is_Some. right. apply prepared_site_marker. }
  rewrite foldl_put_page_union. fold written.
  unfold prepared_site.
  set (marked := match site0 !! ".nojekyll" with
                 | Some _ => site0
                 | None => <[".nojekyll":=EmptyString]> site0
                 end).
  apply map_eq. intros key. rewrite !lookup_union.
  by destruct (written !! key), (asset_files assets !! key), (marked !! key).
Qed.

End Output.

(** ** The site builder's contract *)

(** The sample site: two of its three Page nodes have a source. *)
Example sample_build :
  exists st,
    build_site sample_markdown sample_nav sample_docs sample_assets "/work" ∅
    = Some st
    /\ processed_files st = ["index.md"; "api/websocket-api.md"]
    /\ stdout st
       = [ "Processing: docs/index.md -> index.html";
           "Processing: docs/api/websocket-api.md -> api/websocket-api.html";
           newline +:+ "Build complete! Processed 2 files.";
           "Output directory: /work/site" ]
    /\ dom (site st)
       = {[ ".nojekyll"; "assets/style.css"; "index.html";
            "api/websocket-api.html" ]}.
Proof.
  eexists. split; [vm_compute; reflexivity|].
  split; [reflexivity|]. split; [reflexivity|].
  apply (bool_decide_unpack _). vm_compute. exact I.
Qed.

(** A source that exists and cannot be read aborts the build. *)
Example unreadable_source_aborts :
  build_site sample_markdown sample_nav
    (<["api/http-api.md" := Unreadable]> sample_docs) sample_assets "/work" ∅
  = None.
Proof. vm_compute. reflexivity. Qed.

(** C2. When the build completes, every Page node whose source exists has
    a file in the output at its source path with [.md] replaced by
    [.html]; the replacement is literal and changes every occurrence of
    [.md] in the path.  Where those output paths have no redundant
    components, the output directory is what it was after the marker and
    the assets, with exactly one write for each of those nodes, in
    order. *)
Theorem existing_page_written markdown_convert nav docs assets cwd site0 st :
  build_site markdown_convert nav docs assets cwd site0 = Some st ->
  (forall title path,
     (title, path) ∈ nav_pages nav ->
     is_Some (docs !! path) ->
     is_Some (site st !! replace path ".md" ".html"))
  /\ (Forall (fun page => plain_path (replace page.2 ".md" ".html") = true)
        (existing_pages docs nav) ->
      site st
      = foldl (write_page markdown_convert nav docs)
          (prepared_site assets site0) (existing_pages docs nav))
  /\ (forall a b,
        replace (a +:+ ".md" +:+ b) ".md" ".html"
        = replace a ".md" ".html" +:+ ".html" +:+ replace b ".md" ".html")
  /\ (forall path, contains (replace path ".md" ".html") ".md" = false).
Proof.
  intros [-> _]%build_site_inv.
  split; [|split; [done|split]].
  - intros title path Hin Hex. cbn [site built].
    apply foldl_put_page_is_Some. right. exists (title, path). split; [|done].
    unfold existing_pages. by apply list_elem_of_filter.
  - apply md_replaced_everywhere.
  - apply no_md_left.
Qed.

Lemma existing_page_written_witness :
  is_Some
    (site (built sample_markdown sample_nav sample_docs sample_assets
             "/work" ∅)
     !! replace "api/websocket-api.md" ".md" ".html")
  /\ site (built sample_markdown sample_nav sample_docs sample_assets
             "/work" ∅)
     = foldl (write_page sample_markdown sample_nav sample_docs)
         (prepared_site sample_assets ∅)
         (existing_pages sample_docs sample_nav).
Proof.
  destruct (existing_page_written sample_markdown sample_nav sample_docs
              sample_assets "/work" ∅
              (built sample_markdown sample_nav sample_docs sample_assets
                 "/work" ∅))
    as (Hfile & Hsite & _); [vm_compute; reflexivity|].
  split.
  - apply (Hfile "WebSocket API").
    + apply (bool_decide_unpack _). vm_compute. exact I.
    + by eexists.
  - apply Hsite. apply (bool_decide_unpack _). vm_compute. exact I.
Defined.

(** C5. When the build completes, the list of processed files holds the
    source path of every Page node, at any depth, whose source exists, and
    the count it reports, in the last line but one, is their number. *)
Theorem processed_count_is_existing_pages
    markdown_convert nav docs assets cwd site0 st :
  build_site markdown_convert nav docs assets cwd site0 = Some st ->
  processed_files st = (existing_pages docs nav).*2
  /\ length (processed_files st) = length (existing_pages docs nav)
  /\ exists progress last_line,
       length progress = length (existing_pages docs nav)
       /\ stdout st
          = progress
            ++ [ newline +:+ "Build complete! Processed "
                 +:+ str_of_nat (length (existing_pages docs nav))
                 +:+ " files.";
                 last_line ].
Proof.
  intros [-> _]%build_site_inv.
  split; [reflexivity|]. split; [|].
  - cbn [processed_files built]. by rewrite length_fmap.
  - eexists _, _. split; [|reflexivity]. by rewrite length_map.
Qed.

Lemma processed_count_is_existing_pages_witness :
  processed_files
    (built sample_markdown sample_nav sample_docs sample_assets "/work" ∅)
  = ["index.md"; "api/websocket-api.md"]
  /\ exists progress last_line,
       length progress = 2
       /\ stdout (built sample_markdown sample_nav sample_docs sample_assets
                    "/work" ∅)
          = progress
            ++ [ newline +:+ "Build complete! Processed 2 files."; last_line ].
Proof.
  destruct (processed_count_is_existing_pages sample_markdown sample_nav
              sample_docs sample_assets "/work" ∅
              (built sample_markdown sample_nav sample_docs sample_assets
                 "/work" ∅))
    as (Hfiles & _ & Hcount); [vm_compute; reflexivity|].
  split; [exact Hfiles|exact Hcount].
Defined.



(** C8. The build is a function of its input, and building again over
    its own output changes nothing: the second run returns the same files,
    the same processed list and the same printed lines.  Whatever the
    output directory held before, the page files come out the same. *)
Theorem rebuild_is_identical markdown_convert nav docs assets cwd site0 st1 :
  build_site markdown_convert nav docs assets cwd site0 = Some st1 ->
  build_site markdown_convert nav docs assets cwd (site st1) = Some st1
  /\ (forall site0' st',
        build_site markdown_convert nav docs assets cwd site0' = Some st' ->
        processed_files st' = processed_files st1
        /\ stdout st' = stdout st1
        /\ forall page,
             page ∈ existing_pages docs nav ->
             site st' !! replace page.2 ".md" ".html"
             = site st1 !! replace page.2 ".md" ".html").
Proof.
  intros [-> Hall]%build_site_inv. split.
  - rewrite build_site_total by done. by rewrite outcome_again.
  - intros site0' st' [-> _]%build_site_inv.
    split; [reflexivity|]. split; [reflexivity|].
    intros page Hpage. cbn [site built].
    rewrite (foldl_put_page_union _ _ _ _ (prepared_site assets site0')).
    rewrite (foldl_put_page_union _ _ _ _ (prepared_site assets site0)).
    rewrite !lookup_union.
    destruct (foldl_put_page_is_Some markdown_convert nav docs
                (existing_pages docs nav) ∅ (replace page.2 ".md" ".html"))
      as [text ->]; [by right; exists page|].
    by destruct (prepared_site assets site0' !! _),
                (prepared_site assets site0 !! _).
Qed.

Lemma rebuild_is_identical_witness :
  build_site sample_markdown sample_nav sample_docs sample_assets "/work"
    (site (built sample_markdown sample_nav sample_docs sample_assets
             "/work" ∅))
  = Some (built sample_markdown sample_nav sample_docs sample_assets
            "/work" ∅).
Proof.
  apply (rebuild_is_identical sample_markdown sample_nav sample_docs
           sample_assets "/work" ∅).
  vm_compute. reflexivity.
Defined.

(** C10. An entry with neither children nor a path is still rendered as
    a link: its target is the base path alone and it is marked active
    exactly when the current output path is empty.  The builder passes it
    over: no file, no processed entry, no printed line. *)
Theorem pathless_item_linked_not_built
    markdown_convert nav docs title current_path depth base_path
    parent_path st :
  generate_nav_html [Item title None None] current_path depth base_path
  = join newline
      [ li_item_open +:+ str_of_nat depth
        +:+ (if bool_decide (current_path = EmptyString)
             then " active" else EmptyString)
        +:+ attr_close;
        a_open +:+ base_path +:+ attr_close +:+ title +:+ "</a>";
        "</li>" ]
  /\ link_targets (Item title None None) = [EmptyString]
  /\ process_nav_item markdown_convert nav docs (Item title None None)
       parent_path st
     = Some st
  /\ pages_of (Item title None None) = [].
Proof.
  split; [|by repeat split].
  unfold generate_nav_html. cbn [flat_map nav_item_html default app].
  change (replace EmptyString ".md" ".html") with EmptyString.
  rewrite str_app_empty_l.
  by destruct current_path.
Qed.

(** ** The navigation renderer *)

Lemma split_lines_cons c s :
  split_lines (String c s)
  = if Ascii.eqb c "010" then EmptyString :: split_lines s
    else match split_lines s with
         | line :: lines => String c line :: lines
         | [] => [String c EmptyString]
         end.
Proof.
  unfold split_lines, split. cbn [split_scan startswith newline].
  rewrite andb_true_r, Ascii.eqb_sym. reflexivity.
Qed.

Lemma split_lines_nonempty s : split_lines s <> [].
Proof.
  destruct s as [|c s]; [done|]. rewrite split_lines_cons.
  destruct (Ascii.eqb c "010"); [done|]. by destruct (split_lines s).
Qed.

Lemma split_lines_lacks s :
  lacks "010" s = true -> split_lines s = [s].
Proof.
  induction s as [|c s IH]; [done|].
  rewrite split_lines_cons. cbn [lacks]. intros [Hc Hs]%andb_true_iff.
  rewrite Ascii.eqb_sym. apply negb_true_iff in Hc. rewrite Hc.
  by rewrite IH.
Qed.

Lemma split_lines_app x y :
  split_lines (x +:+ newline +:+ y) = split_lines x ++ split_lines y.
Proof.
  induction x as [|c x IH]; [reflexivity|].
  rewrite str_app_cons, !split_lines_cons.
  destruct (Ascii.eqb c "010"); [by rewrite IH|].
  rewrite IH. pose proof (split_lines_nonempty x).
  by destruct (split_lines x).
Qed.

Lemma count_active_links_lacks line :
  lacks "010" line = true ->
  count_active_links line = if is_active_li line then 1 else 0.
Proof.
  intros H. unfold count_active_links. rewrite split_lines_lacks by done.
  destruct (is_active_li line) eqn:E.
  - by rewrite filter_cons_True.
  - rewrite filter_cons_False; [done|]. by rewrite E.
Qed.

Lemma join_cons sep x y parts :
  join sep (x :: y :: parts) = x +:+ sep +:+ join sep (y :: parts).
Proof. reflexivity. Qed.

Lemma count_active_links_app x y :
  count_active_links (x +:+ newline +:+ y)
  = count_active_links x + count_active_links y.
Proof.
  unfold count_active_links.
  by rewrite split_lines_app, filter_app, length_app.
Qed.

(** The lines of a joined list are the lines of its members. *)
Lemma count_active_links_join parts :
  count_active_links (join newline parts)
  = sum_list_with count_active_links parts.
Proof.
  induction parts as [|x parts IH]; [reflexivity|].
  destruct parts as [|y parts].
  - change (count_active_links x = count_active_links x + 0). lia.
  - rewrite join_cons, count_active_links_app, IH. reflexivity.
Qed.

Lemma sum_list_with_flat_map {A B} (g : B -> nat) (f : A -> list B) l :
  sum_list_with g (flat_map f l)
  = sum_list_with (fun x => sum_list_with g (f x)) l.
Proof.
  induction l as [|x l IH]; [reflexivity|].
  cbn [flat_map sum_list_with]. by rewrite sum_list_with_app, IH.
Qed.

(** A printed number is made of digits. *)
Lemma string_of_uint_lacks c u :
  lacks c "0123456789" = true ->
  lacks c (NilEmpty.string_of_uint u) = true.
Proof.
  intros H. cbn in H.
  repeat (apply andb_true_iff in H as [? H]).
  induction u; cbn [NilEmpty.string_of_uint lacks]; auto with bool.
  all: apply andb_true_iff; split; assumption.
Qed.

Lemma str_of_nat_lacks c n :
  lacks c "0123456789" = true -> lacks c (str_of_nat n) = true.
Proof.
  intros H. unfold str_of_nat, NilZero.string_of_uint.
  destruct (Nat.to_uint n) eqn:E; try (rewrite <- E);
    try (by apply string_of_uint_lacks).
  cbn in *. by apply andb_true_iff in H as [-> _].
Qed.

Section Renderer.

Variables (current_path base_path : string).
Hypothesis base_path_one_line : lacks "010" base_path = true.

(** The list item of a page link is an active one exactly when the
    link's output path is the current one. *)
Lemma li_item_active depth (active : bool) :
  is_active_li
    (li_item_open +:+ str_of_nat depth
     +:+ (if active then " active" else EmptyString) +:+ attr_close)
  = active.
Proof.
  unfold is_active_li. rewrite startswith_app. cbn [andb].
  rewrite contains_app_clean by (vm_compute; reflexivity).
  rewrite contains_app_clean
    by (apply lacks_clean, str_of_nat_lacks; reflexivity).
  by destruct active.
Qed.

Lemma li_item_one_line depth (active : bool) :
  lacks "010"
    (li_item_open +:+ str_of_nat depth
     +:+ (if active then " active" else EmptyString) +:+ attr_close)
  = true.
Proof.
  rewrite !lacks_app, str_of_nat_lacks by reflexivity. by destruct active.
Qed.

Lemma not_li_item prefix rest :
  mismatch prefix li_item_open = true ->
  lacks "010" (prefix +:+ rest) = true ->
  count_active_links (prefix +:+ rest) = 0.
Proof.
  intros Hm Hl. rewrite count_active_links_lacks by done.
  unfold is_active_li. by rewrite mismatch_startswith.
Qed.

(** What one entry adds to the markup holds as many active links as the
    entry has links to the current path. *)
Lemma nav_item_html_active item depth :
  item_lacks "010" item = true ->
  sum_list_with count_active_links
    (nav_item_html current_path base_path depth item)
  = length (filter (fun target => target = current_path) (link_targets item)).
Proof.
  revert depth.
  induction item as [title path|title path children IH]
    using NavItem_nested_ind; intros depth Hitem.
  - cbn [item_lacks] in Hitem.
    apply andb_true_iff in Hitem as [[Htitle Hpath]%andb_true_iff _].
    cbn [nav_item_html link_targets]. cbv zeta.
    set (html_path := replace (default EmptyString path) ".md" ".html").
    assert (lacks "010" html_path = true) as Hhtml
      by (by apply lacks_replace).
    cbn [sum_list_with].
    rewrite count_active_links_lacks by apply li_item_one_line.
    rewrite li_item_active.
    rewrite (not_li_item a_open); [| reflexivity |].
    2:{ rewrite !lacks_app, base_path_one_line, Hhtml, Htitle. reflexivity. }
    change (count_active_links "</li>") with 0.
    destruct (String.eqb_spec html_path current_path) as [Heq|Hne].
    + by rewrite filter_cons_True.
    + by rewrite filter_cons_False.
  - assert (lacks "010" title = true
            /\ forallb (item_lacks "010") children = true) as [Htitle Hall].
    { cbn [item_lacks] in Hitem.
      by apply andb_true_iff in Hitem as [[? _]%andb_true_iff ?]. }
    assert (nav_item_html current_path base_path depth
              (Item title path (Some children))
            = [ li_folder_open +:+ str_of_nat depth +:+ attr_close;
                span_open +:+ title +:+ "</span>";
                ul_open;
                join newline
                  (flat_map (nav_item_html current_path base_path (S depth))
                     children);
                "</ul>"; "</li>" ]) as -> by reflexivity.
    assert (link_targets (Item title path (Some children))
            = flat_map link_targets children) as -> by reflexivity.
    cbn [sum_list_with].
    rewrite (not_li_item li_folder_open); [| reflexivity |].
    2:{ by rewrite !lacks_app, str_of_nat_lacks. }
    rewrite (not_li_item span_open); [| reflexivity |].
    2:{ by rewrite !lacks_app, Htitle. }
    change (count_active_links ul_open) with 0.
    change (count_active_links "</ul>") with 0.
    change (count_active_links "</li>") with 0.
    rewrite count_active_links_join, sum_list_with_flat_map.
    cbn [Nat.add]. rewrite !Nat.add_0_r.
    clear Hitem. induction IH as [|child children Hchild _ IHchildren];
      [reflexivity|].
    cbn [forallb] in Hall. apply andb_true_iff in Hall as [Hc Hcs].
    cbn [sum_list_with flat_map]. rewrite filter_app, length_app.
    rewrite Hchild by done. by rewrite IHchildren.
Qed.

(** The rendered navigation holds as many active links as the tree has
    links to the current path. *)
Lemma active_links_counted nav depth :
  nav_lacks "010" nav = true ->
  count_active_links (generate_nav_html nav current_path depth base_path)
  = length (filter (fun target => target = current_path)
              (nav_link_targets nav)).
Proof.
  unfold generate_nav_html, nav_link_targets, nav_lacks.
  rewrite count_active_links_join, sum_list_with_flat_map.
  induction nav as [|item nav IH]; [reflexivity|].
  cbn [forallb]. intros [Hitem Hnav]%andb_true_iff.
  cbn [sum_list_with flat_map]. rewrite filter_app, length_app.
  rewrite nav_item_html_active by done. by rewrite IH.
Qed.

End Renderer.

Lemma filter_eq_absent {A} `{EqDecision A} (x : A) (l : list A) :
  x ∉ l -> filter (fun y => y = x) l = [].
Proof.
  induction l as [|y l IH]; [done|].
  intros [Hne Hnotin]%not_elem_of_cons.
  rewrite filter_cons_False by congruence. auto.
Qed.

Lemma filter_eq_once {A} `{EqDecision A} (x : A) (l : list A) :
  NoDup l -> x ∈ l -> length (filter (fun y => y = x) l) = 1.
Proof.
  induction 1 as [|y l Hnotin Hnodup IH]; [by intros ?%elem_of_nil|].
  intros [->|Hin]%elem_of_cons.
  - rewrite filter_cons_True by done. by rewrite filter_eq_absent.
  - rewrite filter_cons_False; [auto|]. by intros ->.
Qed.

(** C4 as stated fails: these two Page nodes have different source
    paths, yet both links are marked active on the page built from the
    second. *)
Lemma distinct_sources_two_active :
  NoDup (nav_pages clash_nav).*2
  /\ (let current_path := replace "guide.md.md" ".md" ".html" in
      current_path ∈ nav_link_targets clash_nav
      /\ count_active_links
           (generate_nav_html clash_nav current_path 0
              (relative_base_path current_path))
         = 2).
Proof.
  split; [|split].
  - apply (bool_decide_unpack _). vm_compute. exact I.
  - apply (bool_decide_unpack _). vm_compute. exact I.
  - vm_compute. reflexivity.
Qed.

(** C4, amended. A page link is marked active exactly when its output
    path equals the current one; when the output paths of the links are
    pairwise different, and no title or path breaks a line, the navigation
    rendered for the output path of one of them marks exactly one link. *)
Theorem one_active_link nav current_path depth base_path :
  nav_lacks "010" nav = true ->
  lacks "010" base_path = true ->
  NoDup (nav_link_targets nav) ->
  current_path ∈ nav_link_targets nav ->
  count_active_links (generate_nav_html nav current_path depth base_path) = 1
  /\ forall title path d,
       is_active_li
         (hd EmptyString
            (nav_item_html current_path base_path d (Item title path None)))
       = true
       <-> replace (default EmptyString path) ".md" ".html" = current_path.
Proof.
  intros Hnav Hbase Hnodup Hin. split.
  - rewrite active_links_counted by done. by apply filter_eq_once.
  - intros title path d. cbn [nav_item_html hd]. cbv zeta.
    rewrite li_item_active. apply String.eqb_eq.
Qed.

Lemma one_active_link_witness :
  count_active_links
    (generate_nav_html sample_nav "api/websocket-api.html" 0 "../")
  = 1.
Proof.
  apply (one_active_link sample_nav "api/websocket-api.html" 0 "../").
  - reflexivity.
  - reflexivity.
  - apply (bool_decide_unpack _). vm_compute. exact I.
  - apply (bool_decide_unpack _). vm_compute. exact I.
Defined.

(** In the site's own tree the output paths are pairwise different, so
    every page it builds shows exactly one active link. *)
Lemma nav_structure_one_active title path :
  (title, path) ∈ nav_pages NAV_STRUCTURE ->
  count_active_links
    (generate_nav_html NAV_STRUCTURE (replace path ".md" ".html") 0
       (relative_base_path (replace path ".md" ".html")))
  = 1.
Proof.
  intros Hin. rewrite active_links_counted.
  - apply filter_eq_once.
    + apply (bool_decide_unpack _). vm_compute. exact I.
    + assert (Forall (fun page => replace page.2 ".md" ".html"
                                  ∈ nav_link_targets NAV_STRUCTURE)
                (nav_pages NAV_STRUCTURE)) as Hall
        by (apply (bool_decide_unpack _); vm_compute; exact I).
      rewrite Forall_forall in Hall. apply (Hall (title, path) Hin).
  - by apply relative_base_path_lacks.
  - reflexivity.
Qed.

(** * Further properties of the script *)

(** ** Occurrences *)

Lemma contains_cons c s p :
  contains (String c s) p = startswith (String c s) p || contains s p.
Proof. reflexivity. Qed.

Lemma contains_tail c s p :
  contains s p = true -> contains (String c s) p = true.
Proof. intros H. rewrite contains_cons, H. apply orb_true_r. Qed.

Lemma contains_str_drop n s p :
  contains (str_drop n s) p = true -> contains s p = true.
Proof.
  revert s. induction n as [|n IH]; intros [|c s]; try done.
  cbn [str_drop]. intros H. by apply contains_tail, IH.
Qed.

Lemma contains_cons_false c s p :
  contains (String c s) p = false ->
  startswith (String c s) p = false /\ contains s p = false.
Proof. rewrite contains_cons. apply orb_false_iff. Qed.

Lemma contains_app_l s r p :
  contains s p = true -> contains (s +:+ r) p = true.
Proof.
  revert p. induction s as [|c s IH]; intros p.
  - destruct p as [|a p]; [|done]. intros _. by destruct r.
  - rewrite contains_cons. intros [H|H]%orb_true_iff.
    + rewrite str_app_cons, contains_cons, <- str_app_cons.
      apply orb_true_iff. left. revert H. generalize (String c s).
      clear. intros s. revert s.
      induction p as [|a p IH]; intros [|b s]; simpl; try done.
      rewrite ?str_app_cons. intros [-> ?]%andb_true_iff. simpl. auto.
    + rewrite str_app_cons. by apply contains_tail, IH.
Qed.

Lemma contains_app_r s r p :
  contains r p = true -> contains (s +:+ r) p = true.
Proof.
  intros H. induction s as [|c s IH]; [done|].
  rewrite str_app_cons. by apply contains_tail.
Qed.

Lemma contains_self p r : contains (p +:+ r) p = true.
Proof.
  destruct p as [|a p]; [by destruct r|].
  rewrite str_app_cons, contains_cons, <- str_app_cons, startswith_app.
  reflexivity.
Qed.

(** A text that does not hold the pattern is left as it is. *)
Lemma replace_absent s old new :
  old <> EmptyString -> contains s old = false -> replace s old new = s.
Proof.
  destruct old as [|a o]; [done|]. intros _.
  induction s as [|c s IH]; [done|].
  intros [Hs Hc]%contains_cons_false.
  rewrite replace_miss by done. by rewrite IH.
Qed.

(** ** The diagram pre-pass on other documents *)

Lemma lazy_until_close_contains s body rest :
  lazy_until_close s = Some (body, rest) -> contains s fence_close = true.
Proof.
  revert body rest. induction s as [|c s IH]; intros body rest; [done|].
  cbn [lazy_until_close]. rewrite contains_cons.
  destruct (startswith (String c s) fence_close); [done|].
  destruct (lazy_until_close s) as [[b r]|]; [|done].
  intros _. by rewrite (IH b r).
Qed.

Lemma after_fence_open_contains s body rest :
  after_fence_open s = Some (body, rest) -> contains s fence_close = true.
Proof.
  remember (String.length s) as n eqn:Hn.
  assert (String.length s <= n) as Hle by lia. clear Hn.
  revert s Hle body rest.
  induction n as [|n IH]; intros [|c1 s1] Hle body rest; try done.
  { cbn in Hle. lia. }
  cbn [String.length] in Hle. cbn [after_fence_open].
  destruct (is_space c1).
  - destruct (after_fence_open s1) as [[b r]|] eqn:E.
    + intros _. apply contains_tail. apply (IH s1 ltac:(lia) b r E).
    + destruct (Ascii.eqb c1 "010"); [|done].
      intros H%lazy_until_close_contains. by apply contains_tail.
  - destruct s1 as [|c2 s2]; [done|]. cbn [String.length] in Hle.
    destruct (is_space2 c1 c2).
    { intros H%IH; [|lia]. by do 2 apply contains_tail. }
    destruct s2 as [|c3 s3]; [done|]. cbn [String.length] in Hle.
    destruct (is_space3 c1 c2 c3); [|done].
    intros H%IH; [|lia]. by do 3 apply contains_tail.
Qed.

Lemma match_mermaid_contains s body rest :
  match_mermaid s = Some (body, rest) ->
  contains s fence_open = true /\ contains s fence_close = true.
Proof.
  unfold match_mermaid. destruct (startswith s fence_open) eqn:E; [|done].
  intros H%after_fence_open_contains. split.
  - destruct s as [|c s]; [done|]. by rewrite contains_cons, E.
  - by apply contains_str_drop in H.
Qed.

Lemma sub_mermaid_absent s :
  contains s fence_open = false \/ contains s fence_close = false ->
  sub_mermaid s = s.
Proof.
  induction s as [|c s IH]; [done|]. intros H.
  rewrite sub_mermaid_skip.
  - f_equal. apply IH.
    destruct H as [H|H]; apply contains_cons_false in H as [_ H]; auto.
  - destruct (match_mermaid (String c s)) as [[body rest]|] eqn:E; [|done].
    apply match_mermaid_contains in E as [E1 E2].
    destruct H as [H|H]; congruence.
Qed.

(** X1. A document that holds no opening diagram fence, or no closing
    fence line at all, reaches the Markdown package as it is: an unclosed
    diagram block is not rewritten. *)
Theorem document_without_block_unchanged
    (markdown_convert : string -> string) (md_content : string) :
  contains md_content fence_open = false
  \/ contains md_content fence_close = false ->
  convert_md_to_html markdown_convert md_content
  = markdown_convert md_content.
Proof.
  intros H. unfold convert_md_to_html. cbv zeta.
  by rewrite sub_mermaid_absent.
Qed.

Lemma document_without_block_unchanged_witness :
  convert_md_to_html sample_markdown
    (fence_open +:+ newline +:+ "graph LR; A-->B" +:+ newline +:+ "``")
  = sample_markdown
      (fence_open +:+ newline +:+ "graph LR; A-->B" +:+ newline +:+ "``").
Proof.
  apply (document_without_block_unchanged sample_markdown).
  right. reflexivity.
Defined.

Lemma ascii_not_lead (c lead : ascii) :
  nat_of_ascii c < 128 -> 128 <= nat_of_ascii lead ->
  Ascii.eqb c lead = false.
Proof. intros Hc Hl. apply Ascii.eqb_neq. intros ->. lia. Qed.

Lemma after_fence_open_text c s :
  is_space c = false -> nat_of_ascii c < 128 ->
  after_fence_open (String c s) = None.
Proof.
  intros Hs Hc. cbn [after_fence_open]. rewrite Hs.
  assert (forall lead, 128 <= nat_of_ascii lead -> Ascii.eqb c lead = false)
    as Hlead by (intros; by apply ascii_not_lead).
  destruct s as [|c2 [|c3 s3]]; try done.
  - unfold is_space2. by rewrite (Hlead "194"%char) by (vm_compute; lia).
  - unfold is_space2, is_space3.
    rewrite (Hlead "194"%char), (Hlead "225"%char), (Hlead "226"%char),
      (Hlead "227"%char) by (vm_compute; lia).
    reflexivity.
Qed.

Lemma after_fence_open_line_feed s :
  after_fence_open (String "010" s)
  = match after_fence_open s with
    | Some m => Some m
    | None => lazy_until_close s
    end.
Proof. reflexivity. Qed.

Lemma lazy_until_close_body body post :
  lacks "`" body = true ->
  lazy_until_close (body +:+ fence_close +:+ post) = Some (body, post).
Proof.
  induction body as [|c body IH]; [reflexivity|].
  cbn [lacks]. intros [Hc Hbody]%andb_true_iff.
  rewrite str_app_cons. cbn [lazy_until_close].
  rewrite IH by done.
  assert (startswith (String c (body +:+ fence_close +:+ post)) fence_close
          = false) as ->; [|reflexivity].
  change fence_close with (String "010" "```").
  cbn [startswith]. destruct (Ascii.eqb "010" c); [|reflexivity].
  cbn [andb]. destruct body as [|c2 body]; [reflexivity|].
  cbn [lacks] in Hbody. apply andb_true_iff in Hbody as [Hc2 _].
  rewrite str_app_cons. cbn [startswith].
  apply negb_true_iff in Hc2. by rewrite Hc2.
Qed.

Lemma match_mermaid_body c body post :
  is_space c = false -> nat_of_ascii c < 128 ->
  lacks "`" (String c body) = true ->
  match_mermaid
    (fence_open +:+ newline +:+ String c body +:+ fence_close +:+ post)
  = Some (String c body, post).
Proof.
  intros Hs Hc Hbody. unfold match_mermaid.
  rewrite startswith_app, str_drop_app.
  change (newline +:+ String c body +:+ fence_close +:+ post)
    with (String "010" (String c (body +:+ fence_close +:+ post))).
  rewrite after_fence_open_line_feed, (after_fence_open_text c _ Hs Hc).
  rewrite <- str_app_cons. by apply lazy_until_close_body.
Qed.

(** X2. A diagram block whose text starts with an ASCII character that
    is not white space and holds no backquote is rewritten into a
    container around the stripped text, whatever the text is; the document
    before it (without backquotes) is kept and the document after it is
    rewritten in turn. *)
Theorem any_diagram_becomes_container
    (markdown_convert : string -> string) (pre post body : string) (c : ascii) :
  lacks "`" pre = true ->
  is_space c = false ->
  nat_of_ascii c < 128 ->
  lacks "`" (String c body) = true ->
  convert_md_to_html markdown_convert
    (pre +:+ fence_open +:+ newline +:+ String c body +:+ fence_close +:+ post)
  = markdown_convert
      (pre +:+ (div_open +:+ newline +:+ strip (String c body) +:+ newline
                +:+ "</div>")
       +:+ sub_mermaid post).
Proof.
  intros Hpre Hs Hc Hbody. unfold convert_md_to_html. cbv zeta.
  rewrite sub_mermaid_app_lacks by done.
  by rewrite (sub_mermaid_match _ _ _ (match_mermaid_body c body post Hs Hc Hbody)).
Qed.

Lemma any_diagram_becomes_container_witness :
  convert_md_to_html sample_markdown
    ("Intro" +:+ newline +:+ fence_open +:+ newline
     +:+ String "s" "equenceDiagram  " +:+ fence_close +:+ newline +:+ "End")
  = sample_markdown
      ("Intro" +:+ newline
       +:+ (div_open +:+ newline +:+ strip (String "s" "equenceDiagram  ")
            +:+ newline +:+ "</div>")
       +:+ sub_mermaid (newline +:+ "End")).
Proof.
  apply (any_diagram_becomes_container sample_markdown
           ("Intro" +:+ newline) (newline +:+ "End") "equenceDiagram  " "s").
  - reflexivity.
  - reflexivity.
  - vm_compute. lia.
  - reflexivity.
Defined.

(** A diagram block that holds only white space is closed by the next
    fence line that has text before it: the greedy white space takes the
    block's own closing line feed first. *)
Example blank_block_reaches_next_fence :
  sub_mermaid (fence_open +:+ newline +:+ " " +:+ fence_close +:+ newline
               +:+ "text" +:+ newline +:+ "```python" +:+ newline +:+ "pass"
               +:+ fence_close)
  = div_open +:+ newline +:+ "```" +:+ newline +:+ "text" +:+ newline
    +:+ "</div>" +:+ "python" +:+ newline +:+ "pass" +:+ fence_close.
Proof. reflexivity. Qed.

(** ** The page assembler on other inputs *)

Ltac no_token :=
  repeat rewrite contains_app_clean
    by first [ vm_compute; reflexivity | apply lacks_clean; assumption ];
  vm_compute; reflexivity.

(** X3. When the title, the base path, the navigation and the content
    hold no opening brace, the assembled page holds none of the four
    placeholders any more. *)
Theorem assembled_page_has_no_placeholder
    title base_path nav_html html_content :
  lacks "{" title = true ->
  lacks "{" base_path = true ->
  lacks "{" nav_html = true ->
  lacks "{" html_content = true ->
  let page :=
    fill_template get_html_template title base_path nav_html html_content in
  contains page TITLE = false
  /\ contains page BASE_PATH = false
  /\ contains page NAVIGATION = false
  /\ contains page CONTENT = false.
Proof.
  intros Ht Hb Hn Hc page. subst page.
  rewrite fill_template_splice by done.
  unfold TITLE, BASE_PATH, NAVIGATION, CONTENT.
  repeat split; no_token.
Qed.

Lemma assembled_page_has_no_placeholder_witness :
  contains
    (fill_template get_html_template "Home" "./" "<li>Home</li>" "<p>Hi</p>")
    CONTENT
  = false.
Proof.
  apply (assembled_page_has_no_placeholder "Home" "./" "<li>Home</li>"
           "<p>Hi</p>"); reflexivity.
Defined.

(** X4. A template that holds none of the four placeholders comes back
    unchanged, whatever the values are: nothing but a placeholder is ever
    replaced. *)
Theorem template_without_placeholders_unchanged
    template title base_path nav_html html_content :
  contains template TITLE = false ->
  contains template BASE_PATH = false ->
  contains template NAVIGATION = false ->
  contains template CONTENT = false ->
  fill_template template title base_path nav_html html_content = template.
Proof.
  intros Ht Hb Hn Hc. unfold fill_template. cbv zeta.
  rewrite (replace_absent template TITLE) by (assumption || discriminate).
  rewrite (replace_absent template BASE_PATH) by (assumption || discriminate).
  rewrite (replace_absent template NAVIGATION) by (assumption || discriminate).
  by rewrite (replace_absent template CONTENT) by (assumption || discriminate).
Qed.

Lemma template_without_placeholders_unchanged_witness :
  fill_template "<p>{TITLE} and {{ CONTENT }}</p>" "Home" "./" "<li></li>"
    "<p>Hi</p>"
  = "<p>{TITLE} and {{ CONTENT }}</p>".
Proof.
  apply (template_without_placeholders_unchanged
           "<p>{TITLE} and {{ CONTENT }}</p>" "Home" "./" "<li></li>"
           "<p>Hi</p>"); reflexivity.
Defined.

(** *** The characters of the navigation markup *)






(** *** Paths as pathlib prints them *)

Example pathlib_join_normalises :
  pathlib_join "docs" "./index.md" = "docs/index.md"
  /\ pathlib_join "docs" "api//http-api.md" = "docs/api/http-api.md"
  /\ pathlib_join "docs" "../README.md" = "docs/../README.md"
  /\ pathlib_join "docs" "/srv/index.md" = "/srv/index.md"
  /\ pathlib_join "/work" "site" = "/work/site"
  /\ pathlib_join "/" "site" = "/site".
Proof. repeat split; reflexivity. Qed.








(** ** The site builder on other inputs *)

(** X6. A Page node that names a source which exists and cannot be
    read aborts the build, wherever the node stands in the tree and
    whatever the output directory holds: no state is returned, so no
    summary is printed. *)
Theorem unreadable_source_aborts_build
    markdown_convert nav docs assets cwd site0 title path :
  (title, path) ∈ nav_pages nav ->
  docs !! path = Some Unreadable ->
  build_site markdown_convert nav docs assets cwd site0 = None.
Proof.
  intros Hin Hbad.
  destruct (build_site _ _ _ _ _ _) as [st|] eqn:E; [|done].
  apply build_site_inv in E as [_ Hall].
  unfold sources_readable in Hall. rewrite Forall_forall in Hall.
  by destruct (Hall (title, path) Hin).
Qed.

Lemma unreadable_source_aborts_build_witness :
  build_site sample_markdown sample_nav
    (<["api/http-api.md" := Unreadable]> sample_docs) sample_assets "/work" ∅
  = None.
Proof.
  apply (unreadable_source_aborts_build sample_markdown sample_nav
           (<["api/http-api.md" := Unreadable]> sample_docs) sample_assets
           "/work" ∅ "HTTP API" "api/http-api.md").
  - apply (bool_decide_unpack _). vm_compute. exact I.
  - reflexivity.
Defined.

Section MoreOutput.

Variable markdown_convert : string -> string.
Variable nav : list NavItem.
Variable docs : gmap string Source.

Abbreviation put_page := (write_page markdown_convert nav docs).

Lemma foldl_put_page_other pages files key :
  (forall page, page ∈ pages -> replace page.2 ".md" ".html" <> key) ->
  foldl put_page files pages !! key = files !! key.
Proof.
  revert files. induction pages as [|page pages IH]; intros files Hnot.
  - reflexivity.
  - cbn [foldl]. rewrite IH.
    + unfold write_page. apply lookup_insert_ne, Hnot. by left.
    + intros page' Hin. apply Hnot. by right.
Qed.

Lemma foldl_put_page_own pages files page :
  NoDup (map (fun page => replace page.2 ".md" ".html") pages) ->
  page ∈ pages ->
  foldl put_page files pages !! replace page.2 ".md" ".html"
  = Some (page_text markdown_convert nav page.1 page.2
            (source_text docs page.2)).
Proof.
  revert files. induction pages as [|first pages IH]; intros files Hnodup.
  - by intros ?%elem_of_nil.
  - cbn [map] in Hnodup. apply NoDup_cons in Hnodup as [Hfresh Hnodup].
    cbn [foldl]. intros [->|Hin]%elem_of_cons; [|by apply IH].
    rewrite foldl_put_page_other.
    + unfold write_page. apply lookup_insert_eq.
    + intros page' Hin Heq. apply Hfresh.
      rewrite <- Heq. apply list_elem_of_fmap. by exists page'.
Qed.

End MoreOutput.

Lemma prepared_site_keeps assets site0 key text :
  site0 !! key = Some text ->
  exists text', prepared_site assets site0 !! key = Some text'
    /\ (asset_files assets !! key = None -> text' = text).
Proof.
  intros Hkey. unfold prepared_site. rewrite lookup_union.
  assert (match site0 !! ".nojekyll" with
          | Some _ => site0
          | None => <[".nojekyll":=EmptyString]> site0
          end !! key = Some text) as ->.
  { destruct (site0 !! ".nojekyll") eqn:E; [done|].
    rewrite lookup_insert_ne; [done|]. intros <-. congruence. }
  destruct (asset_files assets !! key) as [data|]; cbn.
  - exists data. by split.
  - exists text. by split.
Qed.

(** X7. A completed build removes no file from the output directory.
    Where the output paths of the pages that are built have no redundant
    components, a file there with such a path that is neither the target
    of an asset copy nor the output path of one of those pages keeps its
    content: stale files stay. *)
Theorem build_keeps_other_files
    markdown_convert nav docs assets cwd site0 st key text :
  build_site markdown_convert nav docs assets cwd site0 = Some st ->
  site0 !! key = Some text ->
  is_Some (site st !! key)
  /\ (plain_path key = true ->
      Forall (fun page => plain_path (replace page.2 ".md" ".html") = true)
        (existing_pages docs nav) ->
      asset_files assets !! key = None ->
      (forall page,
         page ∈ existing_pages docs nav ->
         replace page.2 ".md" ".html" <> key) ->
      site st !! key = Some text).
Proof.
  intros [-> _]%build_site_inv Hkey. cbn [site built].
  destruct (prepared_site_keeps assets site0 key text Hkey)
    as (text' & Hprep & Hsame).
  split.
  - apply foldl_put_page_is_Some. left. by rewrite Hprep.
  - intros _ _ Hasset Hpages. rewrite foldl_put_page_other by done.
    rewrite Hprep. f_equal. auto.
Qed.

Lemma build_keeps_other_files_witness :
  site (built sample_markdown sample_nav sample_docs sample_assets "/work"
          (<["old/page.html" := "stale"]> ∅))
  !! "old/page.html"
  = Some "stale".
Proof.
  destruct (build_keeps_other_files sample_markdown sample_nav sample_docs
              sample_assets "/work" (<["old/page.html" := "stale"]> ∅)
              (built sample_markdown sample_nav sample_docs sample_assets
                 "/work" (<["old/page.html" := "stale"]> ∅))
              "old/page.html" "stale")
    as [_ Hkeeps].
  - vm_compute. reflexivity.
  - reflexivity.
  - apply Hkeeps.
    + reflexivity.
    + apply (bool_decide_unpack _). vm_compute. exact I.
    + apply (bool_decide_unpack _). vm_compute. exact I.
    + intros page Hin.
      assert (Forall (fun page => replace page.2 ".md" ".html"
                                  <> "old/page.html")
                (existing_pages sample_docs sample_nav)) as Hall
        by (apply (bool_decide_unpack _); vm_compute; exact I).
      rewrite Forall_forall in Hall. by apply Hall.
Defined.

(** X8. After a completed build the marker file [.nojekyll] exists and
    every file of the source asset directory has a file under [assets/].
    Where the asset's path and the output paths of the pages that are
    built have no redundant components, that file holds the asset's
    content unless one of those pages has that very output path. *)
Theorem build_copies_assets
    markdown_convert nav docs files cwd site0 st name data :
  build_site markdown_convert nav docs (Some files) cwd site0 = Some st ->
  files !! name = Some data ->
  is_Some (site st !! ".nojekyll")
  /\ is_Some (site st !! ("assets/" +:+ name))
  /\ (plain_path ("assets/" +:+ name) = true ->
      Forall (fun page => plain_path (replace page.2 ".md" ".html") = true)
        (existing_pages docs nav) ->
      (forall page,
         page ∈ existing_pages docs nav ->
         replace page.2 ".md" ".html" <> "assets/" +:+ name) ->
      site st !! ("assets/" +:+ name) = Some data).
Proof.
  intros [-> _]%build_site_inv Hfile. cbn [site built].
  assert (prepared_site (Some files) site0 !! ("assets/" +:+ name)
          = Some data) as Hprep.
  { unfold prepared_site, asset_files. rewrite lookup_union.
    rewrite (lookup_kmap (String.app "assets/")), Hfile.
    match goal with |- Some data ∪ ?rest = _ => by destruct rest end. }
  split; [|split].
  - apply foldl_put_page_is_Some. left. apply prepared_site_marker.
  - apply foldl_put_page_is_Some. left. by rewrite Hprep.
  - intros _ _ Hpages. by rewrite foldl_put_page_other.
Qed.

Lemma build_copies_assets_witness :
  site (built sample_markdown sample_nav sample_docs
          (Some (<["style.css" := "body { margin: 0 }"]> ∅)) "/work" ∅)
  !! ("assets/" +:+ "style.css")
  = Some "body { margin: 0 }".
Proof.
  apply (build_copies_assets sample_markdown sample_nav sample_docs
           (<["style.css" := "body { margin: 0 }"]> ∅) "/work" ∅
           (built sample_markdown sample_nav sample_docs
              (Some (<["style.css" := "body { margin: 0 }"]> ∅)) "/work" ∅)
           "style.css" "body { margin: 0 }").
  - vm_compute. reflexivity.
  - reflexivity.
  - reflexivity.
  - apply (bool_decide_unpack _). vm_compute. exact I.
  - intros page Hin.
    assert (Forall (fun page => replace page.2 ".md" ".html"
                                <> "assets/" +:+ "style.css")
              (existing_pages sample_docs sample_nav)) as Hall
      by (apply (bool_decide_unpack _); vm_compute; exact I).
    rewrite Forall_forall in Hall. by apply Hall.
Defined.

(** X9. When the pages that are built have output paths without
    redundant components that are pairwise different, a completed build
    leaves at the output path of each of them the page assembled for it:
    its own title, the navigation rendered for its own output path and
    its own rendered source. *)
Theorem build_writes_each_page
    markdown_convert nav docs assets cwd site0 st title path md_content :
  build_site markdown_convert nav docs assets cwd site0 = Some st ->
  Forall (fun page => plain_path (replace page.2 ".md" ".html") = true)
    (existing_pages docs nav) ->
  NoDup (map (fun page => replace page.2 ".md" ".html")
           (existing_pages docs nav)) ->
  (title, path) ∈ nav_pages nav ->
  docs !! path = Some (Text md_content) ->
  site st !! replace path ".md" ".html"
  = Some
      (fill_template get_html_template title
         (relative_base_path (replace path ".md" ".html"))
         (generate_nav_html nav (replace path ".md" ".html") 0
            (relative_base_path (replace path ".md" ".html")))
         (convert_md_to_html markdown_convert md_content)).
Proof.
  intros [-> _]%build_site_inv _ Hnodup Hin Hdoc. cbn [site built].
  rewrite (foldl_put_page_own _ _ _ _ _ (title, path) Hnodup).
  - unfold source_text. cbn. by rewrite Hdoc.
  - unfold existing_pages. apply list_elem_of_filter. split; [|done].
    cbn. by rewrite Hdoc.
Qed.

Lemma build_writes_each_page_witness :
  site (built sample_markdown sample_nav sample_docs sample_assets "/work" ∅)
  !! replace "api/websocket-api.md" ".md" ".html"
  = Some
      (fill_template get_html_template "WebSocket API"
         (relative_base_path (replace "api/websocket-api.md" ".md" ".html"))
         (generate_nav_html sample_nav
            (replace "api/websocket-api.md" ".md" ".html") 0
            (relative_base_path
               (replace "api/websocket-api.md" ".md" ".html")))
         (convert_md_to_html sample_markdown "# WebSocket API")).
Proof.
  apply (build_writes_each_page sample_markdown sample_nav sample_docs
           sample_assets "/work" ∅
           (built sample_markdown sample_nav sample_docs sample_assets
              "/work" ∅)
           "WebSocket API" "api/websocket-api.md" "# WebSocket API").
  - vm_compute. reflexivity.
  - apply (bool_decide_unpack _). vm_compute. exact I.
  - apply (bool_decide_unpack _). vm_compute. exact I.
  - apply (bool_decide_unpack _). vm_compute. exact I.
  - reflexivity.
Defined.

Lemma nav_pages_of_pages pages :
  nav_pages (map (fun page => Page page.1 page.2) pages) = pages.
Proof.
  unfold nav_pages. induction pages as [|[title path] pages IH]; [done|].
  cbn. by rewrite IH.
Qed.

(** X10. The builder uses the tree it walks only through the sequence of
    its Page nodes: walking the entries gives the same result as walking
    the flat list of their Page nodes, whatever the [parent_path]
    argument, so folders, entries without a path and [parent_path] have
    no effect on what is built. *)
Theorem traversal_is_flat
    markdown_convert nav docs items parent_path parent_path' st :
  for_each
    (fun item => process_nav_item markdown_convert nav docs item parent_path)
    items st
  = for_each
      (fun item =>
         process_nav_item markdown_convert nav docs item parent_path')
      (map (fun page => Page page.1 page.2) (nav_pages items)) st.
Proof.
  by rewrite !for_each_nav_pages, nav_pages_of_pages.
Qed.

(** ** Output paths and base paths *)

Lemma startswith_cut s p :
  startswith s p = true -> s = p +:+ str_drop (String.length p) s.
Proof.
  revert s. induction p as [|a p IH]; intros [|b s]; simpl; try done.
  intros [?%Ascii.eqb_eq ?]%andb_true_iff. subst b.
  rewrite ?str_app_cons. f_equal. auto.
Qed.

Lemma count_char_app c s t :
  count_char c (s +:+ t) = count_char c s + count_char c t.
Proof.
  induction s as [|b s IH]; [reflexivity|].
  rewrite str_app_cons. cbn [count_char]. rewrite IH. lia.
Qed.

Lemma count_char_replace_scan k s :
  count_char "/" (replace_scan ".md" ".html" k s)
  = count_char "/" (str_drop k s).
Proof.
  revert k. induction s as [|c s IH]; intros [|k]; cbn [replace_scan str_drop];
    auto.
  destruct (startswith (String c s) ".md") eqn:E.
  - apply startswith_cut in E. cbn [String.length str_drop] in E.
    rewrite E, !count_char_app, IH. reflexivity.
  - cbn [count_char]. by rewrite IH.
Qed.

(** X11. Replacing the suffix does not change the number of separators,
    so the base path of a page is one parent step per separator of its
    source path, and the current directory for a source at the top. *)
Theorem base_path_from_source_path path :
  count_char "/" (replace path ".md" ".html") = count_char "/" path
  /\ relative_base_path (replace path ".md" ".html")
     = (if count_char "/" path =? 0 then "./"
        else str_mul "../" (count_char "/" path)).
Proof.
  assert (count_char "/" (replace path ".md" ".html") = count_char "/" path)
    as Hcount by apply count_char_replace_scan.
  split; [exact Hcount|].
  unfold relative_base_path. cbv zeta. rewrite count_separator, Hcount.
  by destruct (count_char "/" path).
Qed.

(** X12. A source path that holds no [.md] is its own output path, and
    computing the output path of an output path changes nothing. *)
Theorem output_path_stable path :
  replace (replace path ".md" ".html") ".md" ".html"
  = replace path ".md" ".html"
  /\ (contains path ".md" = false -> replace path ".md" ".html" = path).
Proof.
  split.
  - apply replace_absent; [done|]. apply no_md_left.
  - by apply replace_absent.
Qed.

Lemma output_path_stable_witness :
  replace "notes/readme.txt" ".md" ".html" = "notes/readme.txt".
Proof. apply (output_path_stable "notes/readme.txt"). reflexivity. Defined.

(** ** The navigation renderer on other inputs *)

(** X13. With titles, paths and base path free of line breaks, the
    rendered navigation marks as many links active as the tree has links
    whose output path is the current one: none when the current path is
    not in the tree, several when several entries share it. *)
Theorem active_links_match_targets nav current_path depth base_path :
  nav_lacks "010" nav = true ->
  lacks "010" base_path = true ->
  count_active_links (generate_nav_html nav current_path depth base_path)
  = length (filter (fun target => target = current_path)
              (nav_link_targets nav))
  /\ (current_path ∉ nav_link_targets nav ->
      count_active_links (generate_nav_html nav current_path depth base_path)
      = 0).
Proof.
  intros Hnav Hbase. rewrite active_links_counted by done.
  split; [reflexivity|]. intros Hnot. by rewrite filter_eq_absent.
Qed.

Lemma active_links_match_targets_witness :
  count_active_links (generate_nav_html sample_nav "missing.html" 0 "./") = 0.
Proof.
  apply (active_links_match_targets sample_nav "missing.html" 0 "./").
  - reflexivity.
  - reflexivity.
  - apply (bool_decide_unpack _). vm_compute. exact I.
Defined.

Lemma nav_item_html_inactive current_path current_path' base_path depth item :
  current_path ∉ link_targets item ->
  current_path' ∉ link_targets item ->
  nav_item_html current_path base_path depth item
  = nav_item_html current_path' base_path depth item.
Proof.
  revert depth. induction item as [title path|title path children IH]
    using NavItem_nested_ind; intros depth Hnot Hnot'.
  - cbn [link_targets] in Hnot, Hnot'. cbn [nav_item_html]. cbv zeta.
    apply not_elem_of_cons in Hnot as [Hne _].
    apply not_elem_of_cons in Hnot' as [Hne' _].
    apply not_eq_sym, String.eqb_neq in Hne.
    apply not_eq_sym, String.eqb_neq in Hne'.
    by rewrite Hne, Hne'.
  - assert (forall current,
              nav_item_html current base_path depth
                (Item title path (Some children))
              = [ li_folder_open +:+ str_of_nat depth +:+ attr_close;
                  span_open +:+ title +:+ "</span>";
                  ul_open;
                  join newline
                    (flat_map (nav_item_html current base_path (S depth))
                       children);
                  "</ul>"; "</li>" ]) as Hfolder by reflexivity.
    assert (link_targets (Item title path (Some children))
            = flat_map link_targets children) as Htargets by reflexivity.
    rewrite Htargets in Hnot, Hnot'.
    assert (flat_map (nav_item_html current_path base_path (S depth)) children
            = flat_map (nav_item_html current_path' base_path (S depth))
                children) as Hsame.
    { clear Hfolder Htargets.
      induction IH as [|child children Hchild _ IHchildren]; [reflexivity|].
      cbn [flat_map] in *.
      apply not_elem_of_app in Hnot as [Hc Hcs].
      apply not_elem_of_app in Hnot' as [Hc' Hcs'].
      by rewrite (Hchild (S depth) Hc Hc'), IHchildren. }
    by rewrite !Hfolder, Hsame.
Qed.

(** X14. The current path matters to the markup only through the active
    class: for any two current paths that no link of the tree leads to,
    the rendered navigation is the same text. *)
Theorem current_path_only_marks nav current_path current_path' depth base_path :
  current_path ∉ nav_link_targets nav ->
  current_path' ∉ nav_link_targets nav ->
  generate_nav_html nav current_path depth base_path
  = generate_nav_html nav current_path' depth base_path.
Proof.
  unfold generate_nav_html, nav_link_targets. intros Hnot Hnot'. f_equal.
  induction nav as [|item nav IH]; [reflexivity|].
  cbn [flat_map] in *.
  apply not_elem_of_app in Hnot as [Hi Hn].
  apply not_elem_of_app in Hnot' as [Hi' Hn'].
  by rewrite (nav_item_html_inactive _ _ _ _ _ Hi Hi'), IH.
Qed.

Lemma current_path_only_marks_witness :
  generate_nav_html sample_nav "missing.html" 0 "./"
  = generate_nav_html sample_nav "other.html" 0 "./".
Proof.
  apply (current_path_only_marks sample_nav "missing.html" "other.html" 0 "./");
    apply (bool_decide_unpack _); vm_compute; exact I.
Defined.

Lemma contains_refl s : contains s s = true.
Proof. rewrite <- (str_app_empty_r s) at 1. apply contains_self. Qed.

Lemma contains_join sep parts part p :
  part ∈ parts -> contains part p = true ->
  contains (join sep parts) p = true.
Proof.
  intros Hin Hpart. induction parts as [|x parts IH]; [by apply elem_of_nil in Hin|].
  destruct parts as [|y parts].
  - apply list_elem_of_singleton in Hin as ->. exact Hpart.
  - rewrite join_cons. apply elem_of_cons in Hin as [->|Hin].
    + by apply contains_app_l.
    + by do 2 apply contains_app_r; apply IH.
Qed.

Lemma nav_item_html_link current_path base_path depth item title path :
  (title, path) ∈ pages_of item ->
  exists part,
    part ∈ nav_item_html current_path base_path depth item
    /\ contains part (link_line base_path title path) = true.
Proof.
  revert depth. induction item as [title' path'|title' path' children IH]
    using NavItem_nested_ind; intros depth Hin.
  - destruct path' as [path'|]; [|by apply elem_of_nil in Hin].
    apply list_elem_of_singleton in Hin. injection Hin as -> ->.
    exists (link_line base_path title' path'). split.
    + cbn [nav_item_html]. cbv zeta. apply elem_of_cons. right.
      apply elem_of_cons. by left.
    + apply contains_refl.
  - assert (pages_of (Item title' path' (Some children))
            = flat_map pages_of children) as Hpages by (by destruct path').
    rewrite Hpages in Hin.
    apply list_elem_of_In, in_flat_map in Hin as (child & Hchild & Hpage).
    rewrite Forall_forall in IH.
    destruct (IH child (proj2 (list_elem_of_In _ _) Hchild) (S depth)
                (proj2 (list_elem_of_In _ _) Hpage))
      as (part & Hpart & Hlink).
    exists (join newline
              (flat_map (nav_item_html current_path base_path (S depth))
                 children)).
    split.
    + assert (nav_item_html current_path base_path depth
                (Item title' path' (Some children))
              = [ li_folder_open +:+ str_of_nat depth +:+ attr_close;
                  span_open +:+ title' +:+ "</span>";
                  ul_open;
                  join newline
                    (flat_map (nav_item_html current_path base_path (S depth))
                       children);
                  "</ul>"; "</li>" ]) as -> by reflexivity.
      do 3 (apply elem_of_cons; right). apply elem_of_cons. by left.
    + apply (contains_join _ _ part); [|done].
      apply list_elem_of_In, in_flat_map. exists child. split; [done|].
      by apply list_elem_of_In.
Qed.

(** X15. Every Page node of the tree, at any depth, has its anchor in
    the rendered navigation: a link to the base path followed by the
    node's output path, with the node's title as its text, whatever the
    current path is. *)
Theorem every_page_is_linked nav current_path depth base_path title path :
  (title, path) ∈ nav_pages nav ->
  contains (generate_nav_html nav current_path depth base_path)
    (a_open +:+ base_path +:+ replace path ".md" ".html" +:+ attr_close
     +:+ title +:+ "</a>")
  = true.
Proof.
  unfold nav_pages. intros Hin.
  apply list_elem_of_In, in_flat_map in Hin as (item & Hitem & Hpage).
  destruct (nav_item_html_link current_path base_path depth item title path
              (proj2 (list_elem_of_In _ _) Hpage))
    as (part & Hpart & Hlink).
  unfold generate_nav_html. apply (contains_join _ _ part); [|exact Hlink].
  apply list_elem_of_In, in_flat_map. exists item. split; [done|].
  by apply list_elem_of_In.
Qed.

Lemma every_page_is_linked_witness :
  contains (generate_nav_html sample_nav "index.html" 0 "./")
    (a_open +:+ "./" +:+ replace "api/http-api.md" ".md" ".html" +:+ attr_close
     +:+ "HTTP API" +:+ "</a>")
  = true.
Proof.
  apply (every_page_is_linked sample_nav "index.html" 0 "./" "HTTP API"
           "api/http-api.md").
  apply (bool_decide_unpack _). vm_compute. exact I.
Defined.

(** *** Counting lines *)

Lemma count_lines_app P x y :
  count_lines P (x +:+ newline +:+ y) = count_lines P x + count_lines P y.
Proof.
  unfold count_lines. by rewrite split_lines_app, filter_app, length_app.
Qed.

Lemma count_lines_line P line :
  lacks "010" line = true -> count_lines P line = Nat.b2n (P line).
Proof.
  intros H. unfold count_lines. rewrite split_lines_lacks by done.
  destruct (P line) eqn:E.
  - by rewrite filter_cons_True.
  - rewrite filter_cons_False; [done|]. by rewrite E.
Qed.

Lemma count_lines_join P parts :
  P EmptyString = false ->
  count_lines P (join newline parts) = sum_list_with (count_lines P) parts.
Proof.
  intros Hempty. induction parts as [|x parts IH].
  - change (count_lines P EmptyString = 0).
    by rewrite count_lines_line, Hempty.
  - destruct parts as [|y parts].
    + cbn [join sum_list_with]. lia.
    + rewrite join_cons, count_lines_app, IH. reflexivity.
Qed.

Lemma startswith_app_l s p r :
  startswith s p = true -> startswith (s +:+ r) p = true.
Proof.
  revert s. induction p as [|a p IH]; intros [|b s]; simpl; try done.
  rewrite ?str_app_cons. intros [-> ?]%andb_true_iff. simpl. auto.
Qed.

Lemma eqb_startswith s p : String.eqb s p = true -> startswith s p = true.
Proof.
  intros ->%String.eqb_eq. rewrite <- (str_app_empty_r p) at 1.
  apply startswith_app.
Qed.

Lemma eqb_mismatch s p r :
  mismatch s p = true -> String.eqb (s +:+ r) p = false.
Proof.
  intros H. apply (mismatch_startswith _ _ r) in H.
  destruct (String.eqb (s +:+ r) p) eqn:E; [|done].
  apply eqb_startswith in E. congruence.
Qed.

Section LineCount.

Variable P : string -> bool.
Variables (on_item on_link on_folder on_span : bool).
Hypothesis P_empty : P EmptyString = false.
Hypothesis P_item : forall rest, P (li_item_open +:+ rest) = on_item.
Hypothesis P_link : forall rest, P (a_open +:+ rest) = on_link.
Hypothesis P_folder : forall rest, P (li_folder_open +:+ rest) = on_folder.
Hypothesis P_span : forall rest, P (span_open +:+ rest) = on_span.

Variables (current_path base_path : string).
Hypothesis base_path_one_line : lacks "010" base_path = true.

Let per_link : nat :=
  Nat.b2n on_item + Nat.b2n on_link + Nat.b2n (P "</li>").
Let per_folder : nat :=
  Nat.b2n on_folder + Nat.b2n on_span + Nat.b2n (P ul_open)
  + Nat.b2n (P "</ul>") + Nat.b2n (P "</li>").

Lemma nav_item_html_lines item depth :
  item_lacks "010" item = true ->
  sum_list_with (count_lines P)
    (nav_item_html current_path base_path depth item)
  = length (link_targets item) * per_link + folders_of item * per_folder.
Proof.
  revert depth. induction item as [title path|title path children IH]
    using NavItem_nested_ind; intros depth Hitem.
  - cbn [item_lacks] in Hitem.
    apply andb_true_iff in Hitem as [[Htitle Hpath]%andb_true_iff _].
    cbn [nav_item_html link_targets folders_of length]. cbv zeta.
    cbn [sum_list_with].
    rewrite !count_lines_line, P_item, P_link; try reflexivity.
    + unfold per_link. lia.
    + by rewrite !lacks_app, base_path_one_line, Htitle, lacks_replace.
    + apply li_item_one_line.
  - assert (lacks "010" title = true
            /\ forallb (item_lacks "010") children = true) as [Htitle Hall].
    { cbn [item_lacks] in Hitem.
      by apply andb_true_iff in Hitem as [[? _]%andb_true_iff ?]. }
    assert (nav_item_html current_path base_path depth
              (Item title path (Some children))
            = [ li_folder_open +:+ str_of_nat depth +:+ attr_close;
                span_open +:+ title +:+ "</span>";
                ul_open;
                join newline
                  (flat_map (nav_item_html current_path base_path (S depth))
                     children);
                "</ul>"; "</li>" ]) as -> by reflexivity.
    assert (link_targets (Item title path (Some children))
            = flat_map link_targets children) as -> by reflexivity.
    assert (folders_of (Item title path (Some children))
            = S (sum_list_with folders_of children)) as -> by reflexivity.
    cbn [sum_list_with].
    rewrite count_lines_join, sum_list_with_flat_map by done.
    rewrite !count_lines_line, P_folder, P_span; try reflexivity.
    2:{ by rewrite !lacks_app, Htitle. }
    2:{ by rewrite !lacks_app, str_of_nat_lacks. }
    assert (sum_list_with
              (fun child =>
                 sum_list_with (count_lines P)
                   (nav_item_html current_path base_path (S depth) child))
              children
            = length (flat_map link_targets children) * per_link
              + sum_list_with folders_of children * per_folder) as ->.
    { clear Hitem. induction IH as [|child children Hchild _ IHchildren];
        [reflexivity|].
      cbn [forallb] in Hall. apply andb_true_iff in Hall as [Hc Hcs].
      cbn [sum_list_with flat_map]. rewrite length_app.
      rewrite Hchild, IHchildren by done. lia. }
    unfold per_folder. lia.
Qed.

Lemma generate_nav_html_lines nav depth :
  nav_lacks "010" nav = true ->
  count_lines P (generate_nav_html nav current_path depth base_path)
  = length (nav_link_targets nav) * per_link + nav_folders nav * per_folder.
Proof.
  unfold generate_nav_html, nav_link_targets, nav_folders, nav_lacks.
  rewrite count_lines_join, sum_list_with_flat_map by done.
  induction nav as [|item nav IH]; [reflexivity|].
  cbn [forallb]. intros [Hitem Hnav]%andb_true_iff.
  cbn [sum_list_with flat_map]. rewrite length_app.
  rewrite nav_item_html_lines, IH by done. lia.
Qed.

End LineCount.

(** X16. With titles, paths and base path free of line breaks, the
    rendered navigation is balanced: it opens and closes one list item
    per entry of the tree (a link or a folder) and one sublist per
    folder. *)
Theorem nav_markup_is_balanced nav current_path depth base_path :
  nav_lacks "010" nav = true ->
  lacks "010" base_path = true ->
  let html := generate_nav_html nav current_path depth base_path in
  count_lines opens_li html = length (nav_link_targets nav) + nav_folders nav
  /\ count_lines closes_li html
     = length (nav_link_targets nav) + nav_folders nav
  /\ count_lines opens_ul html = nav_folders nav
  /\ count_lines closes_ul html = nav_folders nav.
Proof.
  intros Hnav Hbase html. subst html.
  repeat split.
  - rewrite (generate_nav_html_lines opens_li true false true false);
      try done; try (intros; by apply startswith_app_l);
      try (intros; by apply mismatch_startswith).
    cbn. lia.
  - rewrite (generate_nav_html_lines closes_li false false false false);
      try done; try (intros; by apply eqb_mismatch).
    cbn. lia.
  - rewrite (generate_nav_html_lines opens_ul false false false false);
      try done; try (intros; by apply mismatch_startswith).
    cbn. lia.
  - rewrite (generate_nav_html_lines closes_ul false false false false);
      try done; try (intros; by apply eqb_mismatch).
    cbn. lia.
Qed.

Lemma nav_markup_is_balanced_witness :
  count_lines opens_li (generate_nav_html sample_nav "index.html" 0 "./")
  = length (nav_link_targets sample_nav) + nav_folders sample_nav.
Proof.
  apply (nav_markup_is_balanced sample_nav "index.html" 0 "./"); reflexivity.
Defined.

Set Warnings "-clear-no-such-hyp".

Lemma dom_foldl_put_page markdown_convert nav docs pages
    (files : gmap string string) :
  dom (foldl (write_page markdown_convert nav docs) files pages)
  = dom files
    ∪ list_to_set (map (fun page => replace page.2 ".md" ".html") pages).
Proof.
  revert files. induction pages as [|page pages IH]; intros files.
  - cbn. set_solver.
  - cbn [foldl map list_to_set]. rewrite IH. unfold write_page.
    rewrite dom_insert_L. set_solver.
Qed.

(** X17. The files in the output directory after a completed build are
    exactly the files that were there, the marker file, the copied assets
    and one file per output path of the pages that were built: the build
    creates nothing else and removes nothing. *)
Theorem build_output_files
    markdown_convert nav docs assets cwd site0 st :
  build_site markdown_convert nav docs assets cwd site0 = Some st ->
  dom (site st)
  = dom site0 ∪ {[ ".nojekyll" ]} ∪ dom (asset_files assets)
    ∪ list_to_set
        (map (fun page => replace page.2 ".md" ".html")
           (existing_pages docs nav)).
Proof.
  intros [-> _]%build_site_inv. cbn [site built].
  rewrite dom_foldl_put_page. unfold prepared_site. rewrite dom_union_L.
  destruct (site0 !! ".nojekyll") eqn:E.
  - assert (".nojekyll" ∈ dom site0) by (apply elem_of_dom; by rewrite E).
    set_solver.
  - rewrite dom_insert_L. set_solver.
Qed.

Lemma build_output_files_witness :
  dom (site (built sample_markdown sample_nav sample_docs sample_assets
               "/work" ∅))
  = dom (∅ : gmap string string) ∪ {[ ".nojekyll" ]}
    ∪ dom (asset_files sample_assets)
    ∪ list_to_set
        (map (fun page => replace page.2 ".md" ".html")
           (existing_pages sample_docs sample_nav)).
Proof.
  apply (build_output_files sample_markdown sample_nav sample_docs
           sample_assets "/work" ∅).
  vm_compute. reflexivity.
Defined.

(** ** The diagram block and the white space around its text *)


















